(** * Light HAL of the Meizu sm8150 device tree (light/Light.cpp)

    A shallow embedding of the Light service: the two pure helpers
    [rgbToBrightness] and [isLit], the file helpers [set] and [get], the
    constructor, [setLight], [getSupportedTypes] and the three channel
    handlers.  Member state is threaded explicitly; writes to the sysfs
    nodes, the lock guard and the member assignments are recorded in an
    event trace. *)

From Stdlib Require Import ZArith List String Ascii Bool Lia.
Import ListNotations.
Local Open Scope Z_scope.

(** ** Types of the HIDL interface android.hardware.light@2.0

    [Type], [Status], [Flash], [Brightness] and [LightState] are declared by
    the platform interface the service implements.  [Type] is a keyword
    here, hence [LightType]. *)

Inductive LightType : Set :=
  | BACKLIGHT | KEYBOARD | BUTTONS | BATTERY | NOTIFICATIONS
  | ATTENTION | BLUETOOTH | WIFI | COUNT.

Inductive Status : Set :=
  | SUCCESS | LIGHT_NOT_SUPPORTED | BRIGHTNESS_NOT_SUPPORTED | UNKNOWN.

Inductive Flash : Set := NONE | TIMED | HARDWARE.

Inductive Brightness : Set := USER | SENSOR | LOW_PERSISTENCE.

(** [color] is a [uint32_t] (ARGB); the two durations are [int32_t]. *)
Record LightState : Set := mkLightState {
  color : Z;
  flashMode : Flash;
  flashOnMs : Z;
  flashOffMs : Z;
  brightnessMode : Brightness
}.

Definition LightType_eqb (a b : LightType) : bool :=
  match a, b with
  | BACKLIGHT, BACKLIGHT | KEYBOARD, KEYBOARD | BUTTONS, BUTTONS
  | BATTERY, BATTERY | NOTIFICATIONS, NOTIFICATIONS | ATTENTION, ATTENTION
  | BLUETOOTH, BLUETOOTH | WIFI, WIFI | COUNT, COUNT => true
  | _, _ => false
  end.

(** ** Machine arithmetic *)

(** Conversion to [uint32_t]: reduction modulo 2^32. *)
Definition u32 (z : Z) : Z := z mod 2 ^ 32.

Definition INT_MIN : Z := - 2 ^ 31.
Definition INT_MAX : Z := 2 ^ 31 - 1.

(** ** Constants of Light.cpp *)

Definition PANEL_BRIGHTNESS_PATH : string :=
  "/sys/class/backlight/panel0-backlight/brightness"%string.
Definition PANEL_MAX_BRIGHTNESS_PATH : string :=
  "/sys/class/backlight/panel0-backlight/max_brightness"%string.

Definition LED_OFF : Z := 0.
Definition LED_BLINK : Z := 10.

Definition DEFAULT_MAX_BRIGHTNESS : Z := 255.

(** ** The helpers of the anonymous namespace *)

(** Every operand of the sum is [uint32_t]: the constants 77, 150 and 29 are
    converted to the type of the masked colour, so each product and each sum
    wraps at 2^32. *)
Definition rgbToBrightness (state : LightState) : Z :=
  let color := Z.land (color state) 0x00ffffff in
  Z.shiftr
    (u32 (u32 (u32 (77 * Z.land (Z.shiftr color 16) 0xff)
               + u32 (150 * Z.land (Z.shiftr color 8) 0xff))
          + u32 (29 * Z.land color 0xff)))
    8.

(** The masked colour converted to [bool]: true when it is not zero. *)
Definition isLit (state : LightState) : bool :=
  negb (Z.land (color state) 0x00ffffff =? 0).

(** ** Member state and effects *)

(** The three closures the constructor binds, one per member function. *)
Inductive Handler : Set := attnFn | backlightFn | notifFn.

(** Modelled from the spec: the declaration of the members (Light.h) is not
    among the sources.  [mPanelMaxBrightness] has the type [get] returns at
    its only assignment ([int], deduced from [DEFAULT_MAX_BRIGHTNESS]).
    [mLights] is the keyed container the constructor fills and
    [getSupportedTypes] walks; the spec has that walk yield the channels in
    registration order, so it is an association list in insertion order with
    unique keys. *)
Record Light : Set := mkLight {
  mPanelMaxBrightness : Z;
  mAttentionState : LightState;
  mNotificationState : LightState;
  mLights : list (LightType * Handler)
}.

Inductive Slot : Set := AttentionSlot | NotificationSlot.

(** What a call does besides changing the members: taking and dropping
    [mLock], streaming an integer into a file, assigning a stored state. *)
Inductive Event : Set :=
  | EvLock
  | EvUnlock
  | EvWrite (path : string) (value : Z)
  | EvStore (slot : Slot) (state : LightState).

(** A member function: the members before, then the value returned, the
    members after and the events in program order. *)
Definition M (A : Type) : Type := Light -> A * Light * list Event.

Definition ret {A : Type} (a : A) : M A := fun s => (a, s, []).

Definition bind {A B : Type} (m : M A) (k : A -> M B) : M B :=
  fun s =>
    let '(a, s1, e1) := m s in
    let '(b, s2, e2) := k a s1 in
    (b, s2, e1 ++ e2).

Definition gets {A : Type} (f : Light -> A) : M A := fun s => (f s, s, []).

Definition modify (f : Light -> Light) : M unit := fun s => (tt, f s, []).

Definition emit (e : Event) : M unit := fun s => (tt, s, [e]).

Declare Scope light_scope.
Delimit Scope light_scope with light.
Notation "x <- m ;; k" := (bind m (fun x => k))
  (at level 61, m at next level, right associativity) : light_scope.
Notation "m ;; k" := (bind m (fun _ => k))
  (at level 61, right associativity) : light_scope.
Local Open Scope light_scope.

Definition result {A : Type} (r : A * Light * list Event) : A := fst (fst r).
Definition state_after {A : Type} (r : A * Light * list Event) : Light :=
  snd (fst r).
Definition events {A : Type} (r : A * Light * list Event) : list Event :=
  snd r.

(** The writes to device files among the events, in order. *)
Fixpoint device_writes (es : list Event) : list (string * Z) :=
  match es with
  | [] => []
  | EvWrite p v :: r => (p, v) :: device_writes r
  | _ :: r => device_writes r
  end.

(** [std::lock_guard<std::mutex> lock(mLock)] at the head of a function
    body: the lock is taken there and dropped when the body is left. *)
Definition lock_guard {A : Type} (body : M A) : M A :=
  emit EvLock ;; a <- body ;; emit EvUnlock ;; ret a.

(** Walks a trace with the lock's status: the lock is taken only when free,
    dropped only when held, every write and every assignment happens while
    it is held, and it is free at the end. *)
Fixpoint lock_discipline (held : bool) (es : list Event) : bool :=
  match es with
  | [] => negb held
  | EvLock :: r => negb held && lock_discipline true r
  | EvUnlock :: r => held && lock_discipline false r
  | EvWrite _ _ :: r => held && lock_discipline held r
  | EvStore _ _ :: r => held && lock_discipline held r
  end.

(** ** The file helpers *)

(** [set]: opens [path] for writing and streams [value] into it.  A stream
    that failed to open drops the value silently; the event is the attempt. *)
Definition set (path : string) (value : Z) : M unit := emit (EvWrite path value).

(** *** [file >> result] for [int]

    Formatted extraction in the classic locale: leading white space is
    skipped, an optional sign is read, then decimal digits up to the first
    other character.  The stream fails when it could not be opened, when no
    digit was read, and when the number does not fit [int]. *)

Definition isspace (c : ascii) : bool :=
  let n := Z.of_N (N_of_ascii c) in
  ((9 <=? n) && (n <=? 13)) || (n =? 32).

Fixpoint skipws (s : string) : string :=
  match s with
  | String c r => if isspace c then skipws r else s
  | EmptyString => s
  end.

Definition digit (c : ascii) : option Z :=
  let n := Z.of_N (N_of_ascii c) in
  if (48 <=? n) && (n <=? 57) then Some (n - 48) else None.

Fixpoint digits (s : string) (acc : option Z) : option Z :=
  match s with
  | String c r =>
      match digit c with
      | Some d =>
          digits r (Some (10 * match acc with Some a => a | None => 0 end + d))
      | None => acc
      end
  | EmptyString => acc
  end.

Definition extract_int (content : string) : option Z :=
  let number :=
    match skipws content with
    | String "-" r => option_map Z.opp (digits r None)
    | String "+" r => digits r None
    | r => digits r None
    end in
  match number with
  | Some v => if (INT_MIN <=? v) && (v <=? INT_MAX) then Some v else None
  | None => None
  end.

(** The files the service reads: a path has a content or is absent. *)
Definition FileSystem : Type := string -> option string.

(** [get]: [None] from the extraction is [file.fail()]. *)
Definition get (fs : FileSystem) (path : string) (def : Z) : Z :=
  match fs path with
  | None => def
  | Some content =>
      match extract_int content with
      | None => def
      | Some result => result
      end
  end.

(** ** The keyed container [mLights] *)

Fixpoint find (type : LightType) (lights : list (LightType * Handler))
  : option Handler :=
  match lights with
  | [] => None
  | (k, fn) :: r => if LightType_eqb k type then Some fn else find type r
  end.

(** [emplace] adds the pair at the end unless the key is already there. *)
Definition emplace (entry : LightType * Handler)
  (lights : list (LightType * Handler)) : list (LightType * Handler) :=
  match find (fst entry) lights with
  | Some _ => lights
  | None => lights ++ [entry]
  end.

(** Modelled from the spec: the stored states have no initialiser in
    Light.cpp and their declaration is not among the sources; the spec has
    both start unlit, with colour 0. *)
Definition unlit : LightState := mkLightState 0 NONE 0 0 USER.

(** ** The class [Light] *)

Section LightService.

(** The macro [LIGHT_MX_LED_PATH] comes from the build flags, which are not
    among the sources: the directory of the LED is a parameter. *)
Variable LIGHT_MX_LED_PATH : string.

Definition MX_LED_BLINK_PATH : string := (LIGHT_MX_LED_PATH ++ "/blink")%string.

(** [Light::Light] *)
Definition Light_ctor (fs : FileSystem) : Light :=
  let lights := emplace (ATTENTION, attnFn) [] in
  let lights := emplace (BACKLIGHT, backlightFn) lights in
  let lights := emplace (NOTIFICATIONS, notifFn) lights in
  mkLight (get fs PANEL_MAX_BRIGHTNESS_PATH DEFAULT_MAX_BRIGHTNESS)
          unlit unlit lights.

(** The members with one stored state replaced. *)
Definition with_attention (s : Light) (state : LightState) : Light :=
  mkLight (mPanelMaxBrightness s) state (mNotificationState s) (mLights s).

Definition with_notification (s : Light) (state : LightState) : Light :=
  mkLight (mPanelMaxBrightness s) (mAttentionState s) state (mLights s).

(** [mAttentionState = state] and [mNotificationState = state] *)
Definition store_attention (state : LightState) : M unit :=
  modify (fun s => with_attention s state) ;;
  emit (EvStore AttentionSlot state).

Definition store_notification (state : LightState) : M unit :=
  modify (fun s => with_notification s state) ;;
  emit (EvStore NotificationSlot state).

(** [Light::setSpeakerBatteryLightLocked] *)
Definition setSpeakerBatteryLightLocked : M unit :=
  notification <- gets mNotificationState ;;
  if isLit notification then set MX_LED_BLINK_PATH LED_BLINK
  else
    attention <- gets mAttentionState ;;
    if isLit attention then set MX_LED_BLINK_PATH LED_BLINK
    else set MX_LED_BLINK_PATH LED_OFF.

(** [Light::setAttentionLight] *)
Definition setAttentionLight (state : LightState) : M unit :=
  lock_guard (store_attention state ;; setSpeakerBatteryLightLocked).

(** [Light::setNotificationLight] *)
Definition setNotificationLight (state : LightState) : M unit :=
  lock_guard (store_notification state ;; setSpeakerBatteryLightLocked).

(** The scaled value of [setPanelBacklight]: [brightness] is [uint32_t], so
    the [int] members of the product and of the quotient are converted to it
    and the product wraps at 2^32 before the division. *)
Definition scale (brightness maxBrightness : Z) : Z :=
  u32 (u32 (brightness * u32 maxBrightness) / u32 DEFAULT_MAX_BRIGHTNESS).

(** [Light::setPanelBacklight]; the [LOG(VERBOSE)] line goes to the log, not
    to a device, and leaves no event. *)
Definition setPanelBacklight (state : LightState) : M unit :=
  lock_guard (
    let brightness := rgbToBrightness state in
    maxBrightness <- gets mPanelMaxBrightness ;;
    let brightness :=
      if negb (maxBrightness =? DEFAULT_MAX_BRIGHTNESS)
      then scale brightness maxBrightness
      else brightness in
    set PANEL_BRIGHTNESS_PATH brightness).

(** The value [setPanelBacklight] streams into the brightness file, as a
    function of the member and of the request. *)
Definition backlight_value (maxBrightness : Z) (state : LightState) : Z :=
  if negb (maxBrightness =? DEFAULT_MAX_BRIGHTNESS)
  then scale (rgbToBrightness state) maxBrightness
  else rgbToBrightness state.

(** Calling a bound closure of [mLights]. *)
Definition call (fn : Handler) (state : LightState) : M unit :=
  match fn with
  | attnFn => setAttentionLight state
  | backlightFn => setPanelBacklight state
  | notifFn => setNotificationLight state
  end.

(** [Light::setLight] *)
Definition setLight (type : LightType) (state : LightState) : M Status :=
  it <- gets (fun s => find type (mLights s)) ;;
  match it with
  | None => ret LIGHT_NOT_SUPPORTED
  | Some fn => call fn state ;; ret SUCCESS
  end.

(** [Light::getSupportedTypes]: the loop pushes the key of every entry; the
    vector handed to the callback is the value returned. *)
Definition getSupportedTypes : M (list LightType) :=
  lights <- gets mLights ;;
  ret (fold_left (fun types light => types ++ [fst light]) lights []).

(** ** Call histories *)

Inductive Call : Set :=
  | CallSetLight (type : LightType) (state : LightState)
  | CallGetSupportedTypes.

Definition do_call (c : Call) : M unit :=
  match c with
  | CallSetLight type state => setLight type state ;; ret tt
  | CallGetSupportedTypes => getSupportedTypes ;; ret tt
  end.

Fixpoint do_calls (cs : list Call) : M unit :=
  match cs with
  | [] => ret tt
  | c :: r => do_call c ;; do_calls r
  end.

Definition Handler_eqb (a b : Handler) : bool :=
  match a, b with
  | attnFn, attnFn | backlightFn, backlightFn | notifFn, notifFn => true
  | _, _ => false
  end.

(** [find] reaches the closure [fn] under the key [type]. *)
Definition finds (type : LightType) (fn : Handler)
  (lights : list (LightType * Handler)) : bool :=
  match find type lights with
  | Some found => Handler_eqb found fn
  | None => false
  end.

(** The class invariant the constructor sets up: [mLights] holds three
    entries and [find] gets each of the three channels its own closure.  The
    order in which the container keeps the entries is left open: nothing
    [setLight] does depends on it. *)
Definition registeredb (s : Light) : bool :=
  (List.length (mLights s) =? 3)%nat
  && finds ATTENTION attnFn (mLights s)
  && finds BACKLIGHT backlightFn (mLights s)
  && finds NOTIFICATIONS notifFn (mLights s).

Definition registered (s : Light) : Prop := registeredb s = true.

(** ** What the spec calls things *)

(** The 24-bit RGB payload of a colour: bits 0 to 23. *)
Definition rgb_payload (state : LightState) : Z := color state mod 2 ^ 24.

(** The 8-bit components of the payload. *)
Definition red (state : LightState) : Z := (color state / 2 ^ 16) mod 2 ^ 8.
Definition green (state : LightState) : Z := (color state / 2 ^ 8) mod 2 ^ 8.
Definition blue (state : LightState) : Z := color state mod 2 ^ 8.

(** The spec's luma: the weighted sum over the integers, shifted. *)
Definition luma (state : LightState) : Z :=
  Z.shiftr (77 * red state + 150 * green state + 29 * blue state) 8.

(** The spec's LED decision from the two stored states. *)
Definition led_code (notification attention : LightState) : Z :=
  if negb (rgb_payload notification =? 0) then 10
  else if negb (rgb_payload attention =? 0) then 10
  else 0.

(** The last character of a path. *)
Fixpoint last_char (s : string) : option ascii :=
  match s with
  | EmptyString => None
  | String c r => match last_char r with Some d => Some d | None => Some c end
  end.

(** What no handler touches: the scale and the registrations. *)
Definition same_frame (s s' : Light) : Prop :=
  mPanelMaxBrightness s' = mPanelMaxBrightness s /\ mLights s' = mLights s.

(** Two requests whose colours agree on bits 0 to 23. *)
Definition same_low24 (a b : LightState) : Prop :=
  forall i : Z, 0 <= i < 24 -> Z.testbit (color a) i = Z.testbit (color b) i.

(** Two controllers no later request can tell apart by its device writes:
    the same scale, the same registrations, and stored states lit alike. *)
Definition same_decisions (s1 s2 : Light) : Prop :=
  mPanelMaxBrightness s1 = mPanelMaxBrightness s2
  /\ mLights s1 = mLights s2
  /\ isLit (mAttentionState s1) = isLit (mAttentionState s2)
  /\ isLit (mNotificationState s1) = isLit (mNotificationState s2).

(** The capability file is absent, or present with a content [file >> result]
    fails on. *)
Definition capability_unreadable (fs : FileSystem) : Prop :=
  fs PANEL_MAX_BRIGHTNESS_PATH = None
  \/ exists content : string,
       fs PANEL_MAX_BRIGHTNESS_PATH = Some content
       /\ extract_int content = None.

(** The supported channels. *)
Definition supported (type : LightType) : Prop :=
  type = ATTENTION \/ type = BACKLIGHT \/ type = NOTIFICATIONS.

(** ** Device files and call histories *)

(** The content of the file at [path] once the writes have been made in
    order, starting from [content]: [set] opens the file afresh each time, so
    the last value streamed into it is what stays. *)
Definition replay_from (content : option Z) (writes : list (string * Z))
  (path : string) : option Z :=
  fold_left
    (fun content w => if String.eqb (fst w) path then Some (snd w) else content)
    writes content.

(** The same from files nothing has written yet. *)
Definition replay (writes : list (string * Z)) (path : string) : option Z :=
  replay_from None writes path.

(** The state of the last [setLight] of a history on a channel, if any. *)
Definition last_set (type : LightType) (history : list Call)
  : option LightState :=
  fold_left
    (fun found c =>
       match c with
       | CallSetLight t state => if LightType_eqb t type then Some state else found
       | CallGetSupportedTypes => found
       end)
    history None.

Definition supportedb (type : LightType) : bool :=
  match type with
  | ATTENTION | BACKLIGHT | NOTIFICATIONS => true
  | _ => false
  end.

(** The [setLight] calls of a history that are on a supported channel. *)
Definition supported_calls (history : list Call) : list Call :=
  filter
    (fun c =>
       match c with
       | CallSetLight t _ => supportedb t
       | CallGetSupportedTypes => false
       end)
    history.

(** The members with the two stored states exchanged. *)
Definition swap_slots (s : Light) : Light :=
  mkLight (mPanelMaxBrightness s) (mNotificationState s) (mAttentionState s)
          (mLights s).

(** What one call does to the members and to the device files when the three
    channels are registered, read off the handlers: the lemma
    [do_call_effect] ties both to [do_call]. *)
Definition effect_state (c : Call) (s : Light) : Light :=
  match c with
  | CallSetLight ATTENTION state => with_attention s state
  | CallSetLight NOTIFICATIONS state => with_notification s state
  | _ => s
  end.

Definition effect_writes (c : Call) (s : Light) : list (string * Z) :=
  match c with
  | CallSetLight ATTENTION state =>
      [(MX_LED_BLINK_PATH, led_code (mNotificationState s) state)]
  | CallSetLight NOTIFICATIONS state =>
      [(MX_LED_BLINK_PATH, led_code state (mAttentionState s))]
  | CallSetLight BACKLIGHT state =>
      [(PANEL_BRIGHTNESS_PATH, backlight_value (mPanelMaxBrightness s) state)]
  | _ => []
  end.

(** ** The text of an integer *)

(** [file << value] for a 32-bit integer in the classic locale: the decimal
    digits, most significant first, after a minus sign when the value is
    negative.  Ten digits are enough for 32 bits. *)
Definition digit_char (d : Z) : ascii := ascii_of_N (Z.to_N (48 + d)).

Fixpoint format_digits (fuel : nat) (n : Z) (rest : string) : string :=
  match fuel with
  | O => rest
  | S fuel' =>
      let rest' := String (digit_char (n mod 10)) rest in
      if n / 10 =? 0 then rest' else format_digits fuel' (n / 10) rest'
  end.

Definition format_int (v : Z) : string :=
  if v <? 0 then String "-" (format_digits 10 (- v) EmptyString)
  else format_digits 10 v EmptyString.

(** The files once [set] has streamed [value] into the file at [path]. *)
Definition write_file (fs : FileSystem) (path : string) (value : Z)
  : FileSystem :=
  fun p => if String.eqb p path then Some (format_int value) else fs p.

(** A text at which the extraction of digits stops: nothing, or something
    that does not begin with a digit. *)
Definition stops (suffix : string) : bool :=
  match suffix with
  | EmptyString => true
  | String c _ => match digit c with Some _ => false | None => true end
  end.

Definition newline : string := String "010"%char EmptyString.

(** ** Concrete inputs *)

(** A directory for the LED, a device without the capability file, one whose
    capability file has a given content, and a request with a given colour
    and no flashing. *)
Definition example_led_path : string := "/sys/class/leds/mx-led"%string.

Definition no_files : FileSystem := fun _ => None.

Definition capability_file (content : string) : FileSystem :=
  fun path =>
    if String.eqb path PANEL_MAX_BRIGHTNESS_PATH then Some content else None.

Definition rgb (c : Z) : LightState := mkLightState c NONE 0 0 USER.

(** A history with a request on each channel and a rejected one, and a grey
    with bits set above the payload. *)
Definition example_history : list Call :=
  [CallSetLight NOTIFICATIONS (rgb 0x00FF0000);
   CallSetLight ATTENTION (rgb 0);
   CallSetLight BACKLIGHT (rgb 0x00808080);
   CallSetLight WIFI (rgb 0x00FFFFFF);
   CallGetSupportedTypes].

Definition opaque_grey : LightState := mkLightState 0xFF808080 TIMED 500 250 SENSOR.

(** * Properties *)

(** ** Masks and shifts as division and remainder *)

Lemma mask24_payload (c : Z) : Z.land c 0x00ffffff = c mod 2 ^ 24.
Proof. change 0x00ffffff with (Z.ones 24). apply Z.land_ones. lia. Qed.

Lemma mask8_low (c : Z) : Z.land c 0xff = c mod 2 ^ 8.
Proof. change 0xff with (Z.ones 8). apply Z.land_ones. lia. Qed.

Lemma payload_red (c : Z) :
  Z.land (Z.shiftr (Z.land c 0x00ffffff) 16) 0xff = (c / 2 ^ 16) mod 2 ^ 8.
Proof.
  rewrite mask8_low, mask24_payload, Z.shiftr_div_pow2 by lia.
  change (2 ^ 24) with 16777216. change (2 ^ 16) with 65536.
  change (2 ^ 8) with 256.
  Z.div_mod_to_equations. lia.
Qed.

Lemma payload_green (c : Z) :
  Z.land (Z.shiftr (Z.land c 0x00ffffff) 8) 0xff = (c / 2 ^ 8) mod 2 ^ 8.
Proof.
  rewrite mask8_low, mask24_payload, Z.shiftr_div_pow2 by lia.
  change (2 ^ 24) with 16777216. change (2 ^ 8) with 256.
  Z.div_mod_to_equations. lia.
Qed.

Lemma payload_blue (c : Z) :
  Z.land (Z.land c 0x00ffffff) 0xff = c mod 2 ^ 8.
Proof.
  rewrite mask8_low, mask24_payload.
  change (2 ^ 24) with 16777216. change (2 ^ 8) with 256.
  Z.div_mod_to_equations. lia.
Qed.

Lemma component_range (state : LightState) :
  0 <= red state <= 255 /\ 0 <= green state <= 255 /\ 0 <= blue state <= 255.
Proof.
  unfold red, green, blue.
  pose proof (Z.mod_pos_bound (color state / 2 ^ 16) (2 ^ 8)).
  pose proof (Z.mod_pos_bound (color state / 2 ^ 8) (2 ^ 8)).
  pose proof (Z.mod_pos_bound (color state) (2 ^ 8)).
  lia.
Qed.

Lemma u32_small (z : Z) : 0 <= z < 2 ^ 32 -> u32 z = z.
Proof. intros H. unfold u32. apply Z.mod_small. exact H. Qed.

(** The sum of [rgbToBrightness] never wraps. *)
Lemma rgbToBrightness_unfold (state : LightState) :
  rgbToBrightness state =
  Z.shiftr (77 * red state + 150 * green state + 29 * blue state) 8.
Proof.
  unfold rgbToBrightness.
  rewrite payload_red, payload_green, payload_blue.
  fold (red state) (green state) (blue state).
  destruct (component_range state) as (Hr & Hg & Hb).
  rewrite (u32_small (77 * red state)) by lia.
  rewrite (u32_small (150 * green state)) by lia.
  rewrite (u32_small (29 * blue state)) by lia.
  rewrite (u32_small (77 * red state + 150 * green state)) by lia.
  rewrite u32_small by lia.
  reflexivity.
Qed.

Lemma rgbToBrightness_range (state : LightState) :
  0 <= rgbToBrightness state <= 255.
Proof.
  rewrite rgbToBrightness_unfold, Z.shiftr_div_pow2 by lia.
  destruct (component_range state) as (Hr & Hg & Hb).
  change (2 ^ 8) with 256. Z.div_mod_to_equations. lia.
Qed.

Lemma isLit_payload (state : LightState) :
  isLit state = negb (rgb_payload state =? 0).
Proof. unfold isLit, rgb_payload. now rewrite mask24_payload. Qed.

(** ** Running the member functions *)

Lemma setSpeakerBatteryLightLocked_run (s : Light) :
  setSpeakerBatteryLightLocked s =
  (tt, s,
   [EvWrite MX_LED_BLINK_PATH
      (led_code (mNotificationState s) (mAttentionState s))]).
Proof.
  unfold setSpeakerBatteryLightLocked, led_code, bind, gets, set, emit.
  rewrite <- !isLit_payload.
  destruct (isLit (mNotificationState s)); [reflexivity|].
  destruct (isLit (mAttentionState s)); reflexivity.
Qed.

Lemma setAttentionLight_run (state : LightState) (s : Light) :
  setAttentionLight state s =
  (tt, with_attention s state,
   [EvLock; EvStore AttentionSlot state;
    EvWrite MX_LED_BLINK_PATH (led_code (mNotificationState s) state);
    EvUnlock]).
Proof.
  unfold setAttentionLight, lock_guard, store_attention, bind, modify, emit, ret.
  rewrite setSpeakerBatteryLightLocked_run. reflexivity.
Qed.

Lemma setNotificationLight_run (state : LightState) (s : Light) :
  setNotificationLight state s =
  (tt, with_notification s state,
   [EvLock; EvStore NotificationSlot state;
    EvWrite MX_LED_BLINK_PATH (led_code state (mAttentionState s));
    EvUnlock]).
Proof.
  unfold setNotificationLight, lock_guard, store_notification, bind, modify,
    emit, ret.
  rewrite setSpeakerBatteryLightLocked_run. reflexivity.
Qed.

Lemma setPanelBacklight_run (state : LightState) (s : Light) :
  setPanelBacklight state s =
  (tt, s,
   [EvLock;
    EvWrite PANEL_BRIGHTNESS_PATH (backlight_value (mPanelMaxBrightness s) state);
    EvUnlock]).
Proof. reflexivity. Qed.

Lemma setLight_found (type : LightType) (state : LightState) (s : Light)
  (fn : Handler) :
  find type (mLights s) = Some fn ->
  setLight type state s =
  (SUCCESS, state_after (call fn state s), events (call fn state s)).
Proof.
  intros Hfind. unfold setLight, bind, gets, ret. rewrite Hfind.
  destruct (call fn state s) as [[[] s'] es]. simpl.
  now rewrite app_nil_r.
Qed.

Lemma setLight_not_found (type : LightType) (state : LightState) (s : Light) :
  find type (mLights s) = None ->
  setLight type state s = (LIGHT_NOT_SUPPORTED, s, []).
Proof.
  intros Hfind. unfold setLight, bind, gets, ret. now rewrite Hfind.
Qed.

Lemma find_registered (s : Light) (type : LightType) :
  registered s ->
  find type (mLights s) =
  match type with
  | ATTENTION => Some attnFn
  | BACKLIGHT => Some backlightFn
  | NOTIFICATIONS => Some notifFn
  | _ => None
  end.
Proof.
  unfold registered, registeredb, finds. intros H.
  destruct (mLights s) as [|[k1 h1] [|[k2 h2] [|[k3 h3] [|]]]];
    try discriminate H.
  apply andb_prop in H. destruct H as [H Hn].
  apply andb_prop in H. destruct H as [H Hb].
  apply andb_prop in H. destruct H as [_ Ha].
  destruct k1, k2, k3; simpl in Ha, Hb, Hn; try discriminate;
    destruct type; simpl; try reflexivity;
    f_equal; first [ now destruct h1 | now destruct h2 | now destruct h3 ].
Qed.

Lemma registered_frame (s s' : Light) :
  same_frame s s' -> registered s -> registered s'.
Proof.
  intros [_ Hl]. unfold registered, registeredb. now rewrite Hl.
Qed.

Lemma setLight_ATTENTION (state : LightState) (s : Light) :
  registered s ->
  setLight ATTENTION state s =
  (SUCCESS, with_attention s state,
   [EvLock; EvStore AttentionSlot state;
    EvWrite MX_LED_BLINK_PATH (led_code (mNotificationState s) state);
    EvUnlock]).
Proof.
  intros H. rewrite (setLight_found _ _ _ attnFn) by now rewrite find_registered.
  simpl call. now rewrite setAttentionLight_run.
Qed.

Lemma setLight_NOTIFICATIONS (state : LightState) (s : Light) :
  registered s ->
  setLight NOTIFICATIONS state s =
  (SUCCESS, with_notification s state,
   [EvLock; EvStore NotificationSlot state;
    EvWrite MX_LED_BLINK_PATH (led_code state (mAttentionState s));
    EvUnlock]).
Proof.
  intros H. rewrite (setLight_found _ _ _ notifFn) by now rewrite find_registered.
  simpl call. now rewrite setNotificationLight_run.
Qed.

Lemma setLight_BACKLIGHT (state : LightState) (s : Light) :
  registered s ->
  setLight BACKLIGHT state s =
  (SUCCESS, s,
   [EvLock;
    EvWrite PANEL_BRIGHTNESS_PATH (backlight_value (mPanelMaxBrightness s) state);
    EvUnlock]).
Proof.
  intros H.
  rewrite (setLight_found _ _ _ backlightFn) by now rewrite find_registered.
  reflexivity.
Qed.

(** ** The two device paths differ, whatever the LED directory is *)

Lemma last_char_append (a b : string) (c : ascii) :
  last_char b = Some c -> last_char (a ++ b)%string = Some c.
Proof.
  intros Hb. induction a as [|x a IH]; simpl.
  - exact Hb.
  - rewrite IH. destruct (a ++ b)%string eqn:E.
    + destruct a; simpl in E; [subst b|]; discriminate.
    + reflexivity.
Qed.

Lemma blink_path_is_not_brightness_path :
  MX_LED_BLINK_PATH <> PANEL_BRIGHTNESS_PATH.
Proof.
  intros E. apply (f_equal last_char) in E.
  unfold MX_LED_BLINK_PATH in E.
  rewrite (last_char_append _ _ "k"%char) in E by reflexivity.
  discriminate E.
Qed.

(** ** Luma *)

(** C4. For every state the brightness [rgbToBrightness] computes is the
    luma [(77*R + 150*G + 29*B) >> 8] over the 8-bit components of the
    colour, the 32-bit sum never wrapping; pure red gives 76, pure green 149,
    pure blue 28 and white 255. *)
Theorem rgbToBrightness_is_luma :
  (forall state : LightState, rgbToBrightness state = luma state)
  /\ (forall f on off b,
        rgbToBrightness (mkLightState 0x00FF0000 f on off b) = 76
        /\ rgbToBrightness (mkLightState 0x0000FF00 f on off b) = 149
        /\ rgbToBrightness (mkLightState 0x000000FF f on off b) = 28
        /\ rgbToBrightness (mkLightState 0x00FFFFFF f on off b) = 255).
Proof.
  split.
  - intros state. apply rgbToBrightness_unfold.
  - intros f on off b. repeat split; vm_compute; reflexivity.
Qed.

(** ** The LED decision *)

(** C1. After an ATTENTION or a NOTIFICATIONS update the only device write
    goes to the blink file, and its value is [led_code] of the two stored
    states as they are after the update: 10 when the notification state is
    lit, else 10 when the attention state is lit, else 0.  Two controllers
    that end with the same two stored states write the same value, whatever
    else differs. *)
Theorem led_write_is_function_of_stored_states
  (s : Light) (type : LightType) (state : LightState) :
  registered s ->
  type = ATTENTION \/ type = NOTIFICATIONS ->
  let s' := state_after (setLight type state s) in
  device_writes (events (setLight type state s)) =
    [(MX_LED_BLINK_PATH,
      led_code (mNotificationState s') (mAttentionState s'))]
  /\ (led_code (mNotificationState s') (mAttentionState s') = LED_BLINK
      \/ led_code (mNotificationState s') (mAttentionState s') = LED_OFF)
  /\ forall (s2 : Light) (type2 : LightType) (state2 : LightState),
       registered s2 ->
       type2 = ATTENTION \/ type2 = NOTIFICATIONS ->
       let s2' := state_after (setLight type2 state2 s2) in
       mNotificationState s2' = mNotificationState s' ->
       mAttentionState s2' = mAttentionState s' ->
       device_writes (events (setLight type2 state2 s2)) =
       device_writes (events (setLight type state s)).
Proof.
  intros Hreg Htype.
  assert (Hw : forall (s0 : Light) (t0 : LightType) (st0 : LightState),
             registered s0 -> t0 = ATTENTION \/ t0 = NOTIFICATIONS ->
             device_writes (events (setLight t0 st0 s0)) =
             [(MX_LED_BLINK_PATH,
               led_code (mNotificationState (state_after (setLight t0 st0 s0)))
                        (mAttentionState (state_after (setLight t0 st0 s0))))]).
  { intros s0 t0 st0 H0 [-> | ->].
    - rewrite setLight_ATTENTION by assumption. reflexivity.
    - rewrite setLight_NOTIFICATIONS by assumption. reflexivity. }
  cbv zeta. split; [now apply Hw|]. split.
  - unfold led_code, LED_BLINK, LED_OFF.
    destruct (negb _); [now left|]. destruct (negb _); [now left | now right].
  - intros s2 type2 state2 Hreg2 Htype2 Hn Ha.
    rewrite (Hw s2 type2 state2), (Hw s type state) by assumption.
    now rewrite Hn, Ha.
Qed.

(** ** Unsupported channels *)

(** C3. On a channel other than ATTENTION, BACKLIGHT and NOTIFICATIONS
    [setLight] returns LIGHT_NOT_SUPPORTED, leaves every member as it was and
    has no event at all: no device write, no assignment to a stored state. *)
Theorem setLight_unsupported
  (s : Light) (type : LightType) (state : LightState) :
  registered s ->
  ~ supported type ->
  setLight type state s = (LIGHT_NOT_SUPPORTED, s, []).
Proof.
  intros Hreg Hns. apply setLight_not_found.
  rewrite find_registered by assumption.
  unfold supported in Hns. destruct type; try reflexivity; tauto.
Qed.

(** ** Composition and call histories *)

Lemma bind_state_after {A B : Type} (m : M A) (k : A -> M B) (s : Light) :
  state_after (bind m k s) = state_after (k (result (m s)) (state_after (m s))).
Proof.
  unfold bind, result, state_after, events.
  destruct (m s) as [[a s1] e1]. simpl.
  now destruct (k a s1) as [[b s2] e2].
Qed.

Lemma bind_events {A B : Type} (m : M A) (k : A -> M B) (s : Light) :
  events (bind m k s) =
  events (m s) ++ events (k (result (m s)) (state_after (m s))).
Proof.
  unfold bind, result, state_after, events.
  destruct (m s) as [[a s1] e1]. simpl.
  now destruct (k a s1) as [[b s2] e2].
Qed.

Lemma device_writes_app (es fs : list Event) :
  device_writes (es ++ fs) = device_writes es ++ device_writes fs.
Proof.
  induction es as [|e es IH]; [reflexivity|].
  destruct e; simpl; now rewrite IH.
Qed.

Lemma call_frame (fn : Handler) (state : LightState) (s : Light) :
  same_frame s (state_after (call fn state s)).
Proof.
  destruct fn; simpl call.
  - rewrite setAttentionLight_run. now split.
  - rewrite setPanelBacklight_run. now split.
  - rewrite setNotificationLight_run. now split.
Qed.

Lemma setLight_frame (type : LightType) (state : LightState) (s : Light) :
  same_frame s (state_after (setLight type state s)).
Proof.
  destruct (find type (mLights s)) as [fn|] eqn:E.
  - rewrite (setLight_found _ _ _ fn E). apply call_frame.
  - rewrite (setLight_not_found _ _ _ E). now split.
Qed.

Lemma getSupportedTypes_run (s : Light) :
  getSupportedTypes s =
  (fold_left (fun types light => types ++ [fst light]) (mLights s) [], s, []).
Proof. reflexivity. Qed.

Lemma do_call_frame (c : Call) (s : Light) :
  same_frame s (state_after (do_call c s)).
Proof.
  destruct c as [type state|]; unfold do_call; rewrite bind_state_after.
  - apply setLight_frame.
  - rewrite getSupportedTypes_run. now split.
Qed.

Lemma do_calls_frame (cs : list Call) (s : Light) :
  same_frame s (state_after (do_calls cs s)).
Proof.
  revert s. induction cs as [|c cs IH]; intros s; simpl do_calls.
  - now split.
  - rewrite bind_state_after.
    destruct (do_call_frame c s) as [Hp Hl].
    destruct (IH (state_after (do_call c s))) as [Hp' Hl'].
    split; congruence.
Qed.

Lemma Light_ctor_registered (fs : FileSystem) : registered (Light_ctor fs).
Proof. reflexivity. Qed.

Lemma do_calls_registered (cs : list Call) (s : Light) :
  registered s -> registered (state_after (do_calls cs s)).
Proof. apply registered_frame, do_calls_frame. Qed.

Lemma Light_ctor_mLights (fs : FileSystem) :
  mLights (Light_ctor fs) =
  [(ATTENTION, attnFn); (BACKLIGHT, backlightFn); (NOTIFICATIONS, notifFn)].
Proof. reflexivity. Qed.

(** ** The supported channels *)

(** Whatever order the container keeps its entries in, the walk yields each
    of the three channels once and nothing else, and changes nothing. *)
Lemma getSupportedTypes_any_order (s : Light) :
  registered s ->
  state_after (getSupportedTypes s) = s
  /\ events (getSupportedTypes s) = []
  /\ NoDup (result (getSupportedTypes s))
  /\ forall type : LightType,
       In type (result (getSupportedTypes s)) <-> supported type.
Proof.
  rewrite getSupportedTypes_run.
  unfold registered, registeredb, finds, supported, result, state_after, events.
  intros H.
  destruct (mLights s) as [|[k1 h1] [|[k2 h2] [|[k3 h3] [|]]]];
    try discriminate H.
  apply andb_prop in H. destruct H as [H Hn].
  apply andb_prop in H. destruct H as [H Hb].
  apply andb_prop in H. destruct H as [_ Ha].
  destruct k1, k2, k3; simpl in Ha, Hb, Hn; try discriminate; simpl;
    (split; [reflexivity|]; split; [reflexivity|]; split;
     [ repeat constructor; simpl; intuition discriminate
     | intros type; split;
       [ intros [<- | [<- | [<- | []]]]; auto
       | intros [-> | [-> | ->]]; auto ] ]).
Qed.

(** C5. Whatever the capability file held and whatever calls came before,
    [getSupportedTypes] returns ATTENTION, BACKLIGHT, NOTIFICATIONS in this
    order, the order of registration, changes no member and has no event. *)
Theorem getSupportedTypes_registration_order
  (fs : FileSystem) (history : list Call) :
  let s := state_after (do_calls history (Light_ctor fs)) in
  getSupportedTypes s = ([ATTENTION; BACKLIGHT; NOTIFICATIONS], s, []).
Proof.
  cbv zeta. rewrite getSupportedTypes_run.
  destruct (do_calls_frame history (Light_ctor fs)) as [_ Hl].
  rewrite Hl, Light_ctor_mLights. reflexivity.
Qed.

(** ** Repeated requests *)

(** C6. On a supported channel a second [setLight] with the same channel and
    state has the events of the first, so the same device writes in the same
    order, returns the same status and leaves the members exactly as the
    first call left them. *)
Theorem setLight_idempotent
  (s : Light) (type : LightType) (state : LightState) :
  registered s ->
  supported type ->
  let first := setLight type state s in
  let second := setLight type state (state_after first) in
  device_writes (events second) = device_writes (events first)
  /\ events second = events first
  /\ state_after second = state_after first
  /\ result second = result first.
Proof.
  intros Hreg Hsup. cbv zeta.
  assert (Hreg' : registered (state_after (setLight type state s))).
  { exact (registered_frame _ _ (setLight_frame type state s) Hreg). }
  destruct Hsup as [-> | [-> | ->]].
  - rewrite (setLight_ATTENTION state s Hreg) in Hreg' |- *.
    unfold state_after in Hreg' |- *. simpl fst in *. simpl snd in *.
    rewrite (setLight_ATTENTION state _ Hreg'). repeat split; reflexivity.
  - rewrite (setLight_BACKLIGHT state s Hreg) in Hreg' |- *.
    unfold state_after in Hreg' |- *. simpl fst in *. simpl snd in *.
    rewrite (setLight_BACKLIGHT state _ Hreg'). repeat split; reflexivity.
  - rewrite (setLight_NOTIFICATIONS state s Hreg) in Hreg' |- *.
    unfold state_after in Hreg' |- *. simpl fst in *. simpl snd in *.
    rewrite (setLight_NOTIFICATIONS state _ Hreg'). repeat split; reflexivity.
Qed.

(** ** Dispatch under the lock *)

(** C8. On ATTENTION, BACKLIGHT and NOTIFICATIONS, whatever the state,
    [setLight] returns SUCCESS, its members and events are those of the
    member function bound to the channel, and the trace keeps the lock's
    discipline: the lock is taken first, every assignment to a stored state
    and every device write happens while it is held, and it is dropped
    last. *)
Theorem setLight_supported_dispatches_under_lock
  (s : Light) (type : LightType) (state : LightState) :
  registered s ->
  supported type ->
  let handler :=
    match type with
    | ATTENTION => setAttentionLight state
    | BACKLIGHT => setPanelBacklight state
    | _ => setNotificationLight state
    end in
  result (setLight type state s) = SUCCESS
  /\ state_after (setLight type state s) = state_after (handler s)
  /\ events (setLight type state s) = events (handler s)
  /\ lock_discipline false (events (setLight type state s)) = true
  /\ exists body : list Event,
       events (setLight type state s) = EvLock :: body ++ [EvUnlock]
       /\ Forall (fun e => e <> EvLock /\ e <> EvUnlock) body.
Proof.
  intros Hreg Hsup. cbv zeta. destruct Hsup as [-> | [-> | ->]].
  - rewrite (setLight_ATTENTION state s Hreg), setAttentionLight_run.
    repeat split; try reflexivity.
    eexists [_; _]. split; [reflexivity|].
    repeat constructor; discriminate.
  - rewrite (setLight_BACKLIGHT state s Hreg), setPanelBacklight_run.
    repeat split; try reflexivity.
    eexists [_]. split; [reflexivity|].
    repeat constructor; discriminate.
  - rewrite (setLight_NOTIFICATIONS state s Hreg), setNotificationLight_run.
    repeat split; try reflexivity.
    eexists [_; _]. split; [reflexivity|].
    repeat constructor; discriminate.
Qed.

(** ** Frames of the handlers *)

(** C10. The BACKLIGHT handler changes no member, writes the brightness file
    once and never the blink file.  The ATTENTION handler replaces the
    attention state and nothing else, the NOTIFICATIONS handler the
    notification state and nothing else, and neither writes the brightness
    file. *)
Theorem channel_isolation (s : Light) (state : LightState) :
  (state_after (setPanelBacklight state s) = s
   /\ device_writes (events (setPanelBacklight state s)) =
        [(PANEL_BRIGHTNESS_PATH,
          backlight_value (mPanelMaxBrightness s) state)]
   /\ ~ In MX_LED_BLINK_PATH
          (map fst (device_writes (events (setPanelBacklight state s)))))
  /\ (mAttentionState (state_after (setAttentionLight state s)) = state
      /\ mNotificationState (state_after (setAttentionLight state s)) =
           mNotificationState s
      /\ same_frame s (state_after (setAttentionLight state s))
      /\ ~ In PANEL_BRIGHTNESS_PATH
             (map fst (device_writes (events (setAttentionLight state s)))))
  /\ (mNotificationState (state_after (setNotificationLight state s)) = state
      /\ mAttentionState (state_after (setNotificationLight state s)) =
           mAttentionState s
      /\ same_frame s (state_after (setNotificationLight state s))
      /\ ~ In PANEL_BRIGHTNESS_PATH
             (map fst (device_writes (events (setNotificationLight state s))))).
Proof.
  pose proof blink_path_is_not_brightness_path as Hpaths.
  rewrite setPanelBacklight_run, setAttentionLight_run, setNotificationLight_run.
  unfold same_frame. simpl.
  repeat split; try reflexivity; intros [E | []]; congruence.
Qed.

(** ** Only the low 24 bits of a colour count *)

Lemma same_low24_mask (a b : LightState) :
  same_low24 a b ->
  Z.land (color a) 0x00ffffff = Z.land (color b) 0x00ffffff.
Proof.
  intros H. apply Z.bits_inj'. intros n Hn.
  rewrite !Z.land_spec. change 0x00ffffff with (Z.ones 24).
  rewrite Z.testbit_ones_nonneg by lia.
  destruct (Z.ltb_spec n 24) as [Hlt | Hge].
  - now rewrite H by lia.
  - now rewrite !andb_false_r.
Qed.

Lemma same_low24_of_mask (a b : LightState) :
  Z.land (color a) 0x00ffffff = Z.land (color b) 0x00ffffff ->
  same_low24 a b.
Proof.
  intros H i Hi.
  assert (Hbit : forall c : Z,
             Z.testbit (Z.land c 0x00ffffff) i = Z.testbit c i).
  { intros c. rewrite Z.land_spec. change 0x00ffffff with (Z.ones 24).
    rewrite Z.ones_spec_low by lia. apply andb_true_r. }
  now rewrite <- (Hbit (color a)), <- (Hbit (color b)), H.
Qed.

Lemma same_low24_refl (a : LightState) : same_low24 a a.
Proof. intros i _. reflexivity. Qed.

Lemma same_low24_isLit (a b : LightState) :
  same_low24 a b -> isLit a = isLit b.
Proof. intros H. unfold isLit. now rewrite (same_low24_mask a b H). Qed.

Lemma same_low24_rgbToBrightness (a b : LightState) :
  same_low24 a b -> rgbToBrightness a = rgbToBrightness b.
Proof.
  intros H. unfold rgbToBrightness. now rewrite (same_low24_mask a b H).
Qed.

Lemma led_code_isLit (notification attention : LightState) :
  led_code notification attention =
  if isLit notification then LED_BLINK
  else if isLit attention then LED_BLINK else LED_OFF.
Proof. unfold led_code. now rewrite <- !isLit_payload. Qed.

Lemma call_same_decisions (fn : Handler) (a b : LightState) (s1 s2 : Light) :
  same_low24 a b ->
  same_decisions s1 s2 ->
  device_writes (events (call fn a s1)) = device_writes (events (call fn b s2))
  /\ same_decisions (state_after (call fn a s1)) (state_after (call fn b s2)).
Proof.
  intros Hab (Hp & Hl & Ha & Hn).
  pose proof (same_low24_isLit a b Hab) as Hlit.
  pose proof (same_low24_rgbToBrightness a b Hab) as Hrgb.
  destruct fn; simpl call.
  - rewrite !setAttentionLight_run. unfold same_decisions. simpl.
    rewrite !led_code_isLit, Hn, Hlit. now repeat split.
  - rewrite !setPanelBacklight_run. unfold same_decisions, backlight_value.
    simpl. rewrite Hp, Hrgb. now repeat split.
  - rewrite !setNotificationLight_run. unfold same_decisions. simpl.
    rewrite !led_code_isLit, Ha, Hlit. now repeat split.
Qed.

Lemma setLight_same_decisions
  (type : LightType) (a b : LightState) (s1 s2 : Light) :
  same_low24 a b ->
  same_decisions s1 s2 ->
  device_writes (events (setLight type a s1)) =
    device_writes (events (setLight type b s2))
  /\ result (setLight type a s1) = result (setLight type b s2)
  /\ same_decisions (state_after (setLight type a s1))
                    (state_after (setLight type b s2)).
Proof.
  intros Hab Hs. pose proof Hs as (Hp & Hl & Ha & Hn).
  destruct (find type (mLights s1)) as [fn|] eqn:E.
  - rewrite (setLight_found type a s1 fn E).
    rewrite (setLight_found type b s2 fn) by now rewrite <- Hl.
    destruct (call_same_decisions fn a b s1 s2 Hab Hs) as [Hw Hd].
    split; [exact Hw | split; [reflexivity | exact Hd]].
  - rewrite (setLight_not_found type a s1 E).
    rewrite (setLight_not_found type b s2) by now rewrite <- Hl.
    split; [reflexivity | split; [reflexivity | exact Hs]].
Qed.

Lemma do_call_same_decisions (c : Call) (s1 s2 : Light) :
  same_decisions s1 s2 ->
  device_writes (events (do_call c s1)) = device_writes (events (do_call c s2))
  /\ same_decisions (state_after (do_call c s1)) (state_after (do_call c s2)).
Proof.
  intros Hs. destruct c as [type state|]; unfold do_call;
    rewrite !bind_state_after, !bind_events, !device_writes_app.
  - destruct (setLight_same_decisions type state state s1 s2
                (same_low24_refl state) Hs) as (Hw & _ & Hd).
    split; [now rewrite Hw | exact Hd].
  - rewrite !getSupportedTypes_run. now split.
Qed.

Lemma do_calls_same_decisions (cs : list Call) (s1 s2 : Light) :
  same_decisions s1 s2 ->
  device_writes (events (do_calls cs s1)) =
  device_writes (events (do_calls cs s2)).
Proof.
  revert s1 s2. induction cs as [|c cs IH]; intros s1 s2 Hs; simpl do_calls.
  - reflexivity.
  - rewrite !bind_events, !device_writes_app.
    destruct (do_call_same_decisions c s1 s2 Hs) as [Hw Hd].
    now rewrite Hw, (IH _ _ Hd).
Qed.

Lemma same_decisions_refl (s : Light) : same_decisions s s.
Proof. now repeat split. Qed.

(** C9. Two requests whose colours agree on bits 0 to 23, whatever their
    bits 24 to 31, flash mode, durations and brightness mode, sent to the
    same channel of the same controller: [setLight] makes the same device
    writes and returns the same status, the two states are lit alike and
    have the same brightness, and every later history of calls makes the same
    device writes after the one as after the other. *)
Theorem only_low_24_bits_consulted
  (s : Light) (type : LightType) (state1 state2 : LightState) :
  same_low24 state1 state2 ->
  device_writes (events (setLight type state1 s)) =
    device_writes (events (setLight type state2 s))
  /\ result (setLight type state1 s) = result (setLight type state2 s)
  /\ isLit state1 = isLit state2
  /\ rgbToBrightness state1 = rgbToBrightness state2
  /\ forall later : list Call,
       device_writes
         (events (do_calls later (state_after (setLight type state1 s)))) =
       device_writes
         (events (do_calls later (state_after (setLight type state2 s)))).
Proof.
  intros H.
  destruct (setLight_same_decisions type state1 state2 s s H
              (same_decisions_refl s)) as (Hw & Hr & Hd).
  repeat split.
  - exact Hw.
  - exact Hr.
  - now apply same_low24_isLit.
  - now apply same_low24_rgbToBrightness.
  - intros later. now apply do_calls_same_decisions.
Qed.

(** ** The capability file *)

Lemma get_unreadable (fs : FileSystem) :
  capability_unreadable fs ->
  get fs PANEL_MAX_BRIGHTNESS_PATH DEFAULT_MAX_BRIGHTNESS = 255.
Proof.
  unfold get. intros [-> | (content & -> & ->)]; reflexivity.
Qed.

(** C7. When the capability file is absent or its content does not parse,
    the constructor sets [mPanelMaxBrightness] to 255; after any history of
    calls it is still 255, and a BACKLIGHT request then writes the brightness
    [rgbToBrightness] computes, the luma, unscaled. *)
Theorem capability_fallback (fs : FileSystem) :
  capability_unreadable fs ->
  mPanelMaxBrightness (Light_ctor fs) = 255
  /\ forall history : list Call,
       let s := state_after (do_calls history (Light_ctor fs)) in
       mPanelMaxBrightness s = 255
       /\ forall state : LightState,
            device_writes (events (setLight BACKLIGHT state s)) =
              [(PANEL_BRIGHTNESS_PATH, rgbToBrightness state)]
            /\ rgbToBrightness state = luma state.
Proof.
  intros Hfs.
  assert (H0 : mPanelMaxBrightness (Light_ctor fs) = 255)
    by (simpl; now apply get_unreadable).
  split; [exact H0|]. intros history. cbv zeta.
  destruct (do_calls_frame history (Light_ctor fs)) as [Hp _].
  pose proof (do_calls_registered history _ (Light_ctor_registered fs)) as Hreg.
  rewrite Hp, H0. split; [reflexivity|]. intros state.
  rewrite (setLight_BACKLIGHT state _ Hreg), Hp, H0.
  split; [reflexivity | apply rgbToBrightness_unfold].
Qed.

(** ** Scaling *)

Lemma scale_exact (brightness maxBrightness : Z) :
  0 <= brightness ->
  0 <= maxBrightness ->
  brightness * maxBrightness < 2 ^ 32 ->
  scale brightness maxBrightness = brightness * maxBrightness / 255.
Proof.
  intros Hb Hm Hlt. unfold scale, DEFAULT_MAX_BRIGHTNESS.
  rewrite (u32_small 255) by lia.
  assert (Hprod : u32 (brightness * u32 maxBrightness) =
                  brightness * maxBrightness).
  { destruct (Z.eq_dec brightness 0) as [-> | Hnz].
    - now rewrite !Z.mul_0_l.
    - rewrite (u32_small maxBrightness) by nia.
      apply u32_small. nia. }
  rewrite Hprod. apply u32_small.
  assert (0 <= brightness * maxBrightness) by nia.
  change (2 ^ 32) with 4294967296 in *.
  Z.div_mod_to_equations. lia.
Qed.

(** C2, as the code has it.  When [mPanelMaxBrightness] is not 255, is not
    negative, and its product with the luma fits 32 bits (so for every
    maximum from 0 to 16843009), the value written to the brightness file is
    luma * mPanelMaxBrightness / 255, the quotient truncated; with a maximum
    of 4095 and a luma of 128 that value is 2055. *)
Theorem backlight_scaling
  (s : Light) (state : LightState) :
  mPanelMaxBrightness s <> 255 ->
  0 <= mPanelMaxBrightness s ->
  rgbToBrightness state * mPanelMaxBrightness s < 2 ^ 32 ->
  device_writes (events (setPanelBacklight state s)) =
    [(PANEL_BRIGHTNESS_PATH,
      rgbToBrightness state * mPanelMaxBrightness s / 255)]
  /\ (mPanelMaxBrightness s = 4095 ->
      rgbToBrightness state = 128 ->
      device_writes (events (setPanelBacklight state s)) =
        [(PANEL_BRIGHTNESS_PATH, 2055)]).
Proof.
  intros Hne Hpos Hfit.
  assert (Hw : device_writes (events (setPanelBacklight state s)) =
               [(PANEL_BRIGHTNESS_PATH,
                 rgbToBrightness state * mPanelMaxBrightness s / 255)]).
  { rewrite setPanelBacklight_run. unfold backlight_value.
    destruct (Z.eqb_spec (mPanelMaxBrightness s) DEFAULT_MAX_BRIGHTNESS)
      as [E | _]; [now elim Hne|].
    cbn [negb]. rewrite scale_exact; try assumption; [reflexivity|].
    apply rgbToBrightness_range. }
  split; [exact Hw|]. intros Hmax Hluma. rewrite Hw, Hmax, Hluma. reflexivity.
Qed.

(** * Further properties of the code *)

(** ** Brightness of a colour *)

(** X1. Whatever the 32 bits of the colour, [rgbToBrightness] yields a value
    from 0 to 255. *)
Theorem rgbToBrightness_in_byte_range (state : LightState) :
  0 <= rgbToBrightness state <= 255.
Proof. apply rgbToBrightness_range. Qed.

(** X2. A grey keeps its level: when the three components of the colour are
    the same value [v], the brightness is [v], the weights 77, 150 and 29
    adding up to 256. *)
Theorem rgbToBrightness_grey (state : LightState) (v : Z) :
  red state = v -> green state = v -> blue state = v ->
  rgbToBrightness state = v.
Proof.
  intros Hr Hg Hb. rewrite rgbToBrightness_unfold, Hr, Hg, Hb.
  rewrite Z.shiftr_div_pow2 by lia.
  replace (77 * v + 150 * v + 29 * v) with (v * 2 ^ 8) by lia.
  apply Z.div_mul. lia.
Qed.

(** X3. A colour that is not lit has brightness 0. *)
Theorem unlit_has_no_brightness (state : LightState) :
  isLit state = false -> rgbToBrightness state = 0.
Proof.
  intros H. unfold isLit in H. apply negb_false_iff, Z.eqb_eq in H.
  unfold rgbToBrightness. rewrite H. reflexivity.
Qed.

(** X4. Raising components never lowers the brightness: if each component of
    one colour is at most that of another, so is its brightness. *)
Theorem rgbToBrightness_monotone (a b : LightState) :
  red a <= red b -> green a <= green b -> blue a <= blue b ->
  rgbToBrightness a <= rgbToBrightness b.
Proof.
  intros Hr Hg Hb. rewrite !rgbToBrightness_unfold.
  rewrite !Z.shiftr_div_pow2 by lia.
  apply Z.div_le_mono; lia.
Qed.

(** ** The value written to the brightness file *)

Lemma backlight_value_exact (maxBrightness : Z) (state : LightState) :
  0 <= maxBrightness <= 16843009 ->
  backlight_value maxBrightness state =
  rgbToBrightness state * maxBrightness / 255.
Proof.
  intros Hm. pose proof (rgbToBrightness_range state) as Hb.
  unfold backlight_value, DEFAULT_MAX_BRIGHTNESS.
  destruct (Z.eqb_spec maxBrightness 255) as [-> | Hne]; cbn [negb].
  - symmetry. apply Z.div_mul. lia.
  - apply scale_exact; nia.
Qed.

Lemma backlight_value_bounded (maxBrightness : Z) (state : LightState) :
  0 <= backlight_value maxBrightness state <= 16843009.
Proof.
  pose proof (rgbToBrightness_range state) as Hb.
  unfold backlight_value, scale, DEFAULT_MAX_BRIGHTNESS.
  destruct (negb (maxBrightness =? 255)); [|lia].
  unfold u32.
  set (product := rgbToBrightness state * (maxBrightness mod 2 ^ 32)).
  clearbody product.
  pose proof (Z.mod_pos_bound product (2 ^ 32)) as Hp.
  change (255 mod 2 ^ 32) with 255.
  assert (Hq : 0 <= product mod 2 ^ 32 / 255 <= 16843009).
  { split.
    - apply Z.div_pos; lia.
    - apply Z.div_le_upper_bound; lia. }
  rewrite (Z.mod_small (product mod 2 ^ 32 / 255)); lia.
Qed.

(** X5. With a capability from 0 to 16843009, 255 included, the BACKLIGHT
    handler writes luma * mPanelMaxBrightness / 255: a value from 0 to
    mPanelMaxBrightness, 0 for luma 0 and mPanelMaxBrightness itself for
    luma 255. *)
Theorem backlight_within_panel_range (s : Light) (state : LightState) :
  0 <= mPanelMaxBrightness s <= 16843009 ->
  device_writes (events (setPanelBacklight state s)) =
    [(PANEL_BRIGHTNESS_PATH,
      rgbToBrightness state * mPanelMaxBrightness s / 255)]
  /\ 0 <= rgbToBrightness state * mPanelMaxBrightness s / 255
       <= mPanelMaxBrightness s
  /\ (rgbToBrightness state = 0 ->
      rgbToBrightness state * mPanelMaxBrightness s / 255 = 0)
  /\ (rgbToBrightness state = 255 ->
      rgbToBrightness state * mPanelMaxBrightness s / 255 =
      mPanelMaxBrightness s).
Proof.
  intros Hm. pose proof (rgbToBrightness_range state) as Hb.
  rewrite setPanelBacklight_run, backlight_value_exact by assumption.
  split; [reflexivity|]. split; [|split].
  - split.
    + apply Z.div_pos; nia.
    + apply Z.div_le_upper_bound; nia.
  - intros ->. reflexivity.
  - intros ->. rewrite Z.mul_comm. apply Z.div_mul. lia.
Qed.

(** X6. With such a capability a brighter request never gets a lower value
    written. *)
Theorem backlight_monotone (s : Light) (a b : LightState) :
  0 <= mPanelMaxBrightness s <= 16843009 ->
  rgbToBrightness a <= rgbToBrightness b ->
  backlight_value (mPanelMaxBrightness s) a
  <= backlight_value (mPanelMaxBrightness s) b
  /\ device_writes (events (setPanelBacklight a s)) =
     [(PANEL_BRIGHTNESS_PATH, backlight_value (mPanelMaxBrightness s) a)]
  /\ device_writes (events (setPanelBacklight b s)) =
     [(PANEL_BRIGHTNESS_PATH, backlight_value (mPanelMaxBrightness s) b)].
Proof.
  intros Hm Hab. split; [|split; reflexivity].
  rewrite !backlight_value_exact by assumption.
  apply Z.div_le_mono; nia.
Qed.

(** X7. Whatever the capability, negative or huge, the value the BACKLIGHT
    handler writes is from 0 to 16843009: the 32-bit product divided by
    255. *)
Theorem backlight_write_bounded (s : Light) (state : LightState) :
  device_writes (events (setPanelBacklight state s)) =
    [(PANEL_BRIGHTNESS_PATH, backlight_value (mPanelMaxBrightness s) state)]
  /\ 0 <= backlight_value (mPanelMaxBrightness s) state <= 16843009.
Proof.
  split; [reflexivity | apply backlight_value_bounded].
Qed.

(** ** One call, two calls *)

Lemma setLight_registered (type : LightType) (state : LightState) (s : Light) :
  registered s ->
  state_after (setLight type state s) = effect_state (CallSetLight type state) s
  /\ device_writes (events (setLight type state s)) =
     effect_writes (CallSetLight type state) s
  /\ result (setLight type state s) =
     if supportedb type then SUCCESS else LIGHT_NOT_SUPPORTED.
Proof.
  intros Hreg. destruct type;
    first [ rewrite (setLight_ATTENTION state s Hreg)
          | rewrite (setLight_BACKLIGHT state s Hreg)
          | rewrite (setLight_NOTIFICATIONS state s Hreg)
          | rewrite (setLight_not_found _ state s)
              by now rewrite find_registered ];
    repeat split; reflexivity.
Qed.

Lemma do_call_effect (c : Call) (s : Light) :
  registered s ->
  state_after (do_call c s) = effect_state c s
  /\ device_writes (events (do_call c s)) = effect_writes c s.
Proof.
  intros Hreg. destruct c as [type state|]; unfold do_call;
    rewrite bind_state_after, bind_events, device_writes_app.
  - destruct (setLight_registered type state s Hreg) as (Hs & Hw & _).
    split; [exact Hs | rewrite Hw; apply app_nil_r].
  - rewrite getSupportedTypes_run. split; reflexivity.
Qed.

Lemma effect_state_frame (c : Call) (s : Light) :
  same_frame s (effect_state c s).
Proof. destruct c as [[] state|]; split; reflexivity. Qed.

Lemma effect_state_registered (c : Call) (s : Light) :
  registered s -> registered (effect_state c s).
Proof. apply registered_frame, effect_state_frame. Qed.

Lemma do_calls_app (h1 h2 : list Call) (s : Light) :
  state_after (do_calls (h1 ++ h2) s) =
    state_after (do_calls h2 (state_after (do_calls h1 s)))
  /\ events (do_calls (h1 ++ h2) s) =
     events (do_calls h1 s) ++
     events (do_calls h2 (state_after (do_calls h1 s))).
Proof.
  revert s. induction h1 as [|c h1 IH]; intros s.
  - split; reflexivity.
  - simpl app. simpl do_calls.
    rewrite !bind_state_after, !bind_events.
    destruct (IH (state_after (do_call c s))) as [Hs He].
    split; [exact Hs | rewrite He; apply app_assoc].
Qed.

Lemma do_calls_one (c : Call) (s : Light) :
  state_after (do_calls [c] s) = state_after (do_call c s)
  /\ events (do_calls [c] s) = events (do_call c s).
Proof.
  simpl do_calls. rewrite bind_state_after, bind_events.
  split; [reflexivity | apply app_nil_r].
Qed.

Lemma do_calls_snoc (h : list Call) (c : Call) (s : Light) :
  registered s ->
  state_after (do_calls (h ++ [c]) s) =
    effect_state c (state_after (do_calls h s))
  /\ device_writes (events (do_calls (h ++ [c]) s)) =
     device_writes (events (do_calls h s)) ++
     effect_writes c (state_after (do_calls h s)).
Proof.
  intros Hreg. destruct (do_calls_app h [c] s) as [Hs He].
  destruct (do_calls_one c (state_after (do_calls h s))) as [Hs1 He1].
  destruct (do_call_effect c _ (do_calls_registered h s Hreg)) as [Hs2 Hw2].
  rewrite Hs, He, device_writes_app, Hs1, He1, Hs2, Hw2.
  split; reflexivity.
Qed.

(** X8. The LED does not tell the two channels apart: an ATTENTION or
    NOTIFICATIONS update writes 10 when at least one of the two stored states
    is lit and 0 when neither is, so a request on ATTENTION writes what the
    same request on NOTIFICATIONS writes when the two stored states are
    exchanged. *)
Theorem led_does_not_tell_channels_apart (s : Light) (state : LightState) :
  registered s ->
  device_writes (events (setLight ATTENTION state s)) =
    [(MX_LED_BLINK_PATH,
      if isLit state || isLit (mNotificationState s)
      then LED_BLINK else LED_OFF)]
  /\ device_writes (events (setLight NOTIFICATIONS state s)) =
     [(MX_LED_BLINK_PATH,
       if isLit state || isLit (mAttentionState s)
       then LED_BLINK else LED_OFF)]
  /\ device_writes (events (setLight ATTENTION state s)) =
     device_writes (events (setLight NOTIFICATIONS state (swap_slots s))).
Proof.
  intros Hreg.
  assert (Hswap : registered (swap_slots s))
    by (apply (registered_frame s); [split; reflexivity | exact Hreg]).
  rewrite (setLight_ATTENTION state s Hreg).
  rewrite (setLight_NOTIFICATIONS state s Hreg).
  rewrite (setLight_NOTIFICATIONS state _ Hswap).
  cbn [events snd device_writes swap_slots mAttentionState].
  rewrite !led_code_isLit.
  destruct (isLit state), (isLit (mNotificationState s)),
    (isLit (mAttentionState s)); repeat split; reflexivity.
Qed.

(** X9. The last request on a channel wins: after a first [setLight] on a
    channel, a second one on the same channel leaves the members, makes the
    events and returns the status that it would have without the first.
    This holds for every channel, supported or not. *)
Theorem setLight_last_request_wins
  (s : Light) (type : LightType) (state1 state2 : LightState) :
  let first := setLight type state1 s in
  let second := setLight type state2 (state_after first) in
  state_after second = state_after (setLight type state2 s)
  /\ events second = events (setLight type state2 s)
  /\ result second = result (setLight type state2 s).
Proof.
  cbv zeta. destruct (find type (mLights s)) as [fn|] eqn:E.
  - assert (E' : find type (mLights (state_after (setLight type state1 s)))
                 = Some fn).
    { destruct (setLight_frame type state1 s) as [_ Hl]. now rewrite Hl. }
    rewrite (setLight_found type state2 _ fn E').
    rewrite (setLight_found type state2 s fn E).
    rewrite (setLight_found type state1 s fn E).
    cbn [state_after events result fst snd].
    destruct fn; simpl call;
      rewrite ?setAttentionLight_run, ?setPanelBacklight_run,
        ?setNotificationLight_run;
      repeat split; reflexivity.
  - rewrite (setLight_not_found type state1 s E).
    cbn [state_after fst snd].
    rewrite (setLight_not_found type state2 s E).
    repeat split; reflexivity.
Qed.

(** ** Files after a history *)



Lemma last_set_snoc (type : LightType) (h : list Call) (c : Call) :
  last_set type (h ++ [c]) =
  match c with
  | CallSetLight t state =>
      if LightType_eqb t type then Some state else last_set type h
  | CallGetSupportedTypes => last_set type h
  end.
Proof. unfold last_set. rewrite fold_left_app. reflexivity. Qed.



Lemma blink_path_is_not_capability_path :
  MX_LED_BLINK_PATH <> PANEL_MAX_BRIGHTNESS_PATH.
Proof.
  intros E. apply (f_equal last_char) in E.
  unfold MX_LED_BLINK_PATH in E.
  rewrite (last_char_append _ _ "k"%char) in E by reflexivity.
  discriminate E.
Qed.

(** X10. After any history of calls on a controller with the three channels
    registered, each stored state is the state of the last request on its
    channel, or what it was when the history has none; the scale and the
    registrations are untouched. *)
Theorem stored_states_are_last_requests (s : Light) (history : list Call) :
  registered s ->
  let s' := state_after (do_calls history s) in
  mAttentionState s' =
    match last_set ATTENTION history with
    | Some state => state
    | None => mAttentionState s
    end
  /\ mNotificationState s' =
     match last_set NOTIFICATIONS history with
     | Some state => state
     | None => mNotificationState s
     end
  /\ same_frame s s'.
Proof.
  intros Hreg. cbv zeta. induction history as [|c h IH] using rev_ind.
  - repeat split; reflexivity.
  - destruct (do_calls_snoc h c s Hreg) as [Hs _].
    destruct IH as (Ha & Hn & Hp & Hl).
    rewrite Hs, !last_set_snoc. unfold same_frame.
    destruct c as [[] state|]; cbn [effect_state LightType_eqb];
      cbn [with_attention with_notification mAttentionState
           mNotificationState mPanelMaxBrightness mLights];
      repeat split; assumption || reflexivity.
Qed.



(** ** What a history never does *)

Lemma call_writes (fn : Handler) (state : LightState) (s : Light) :
  Forall (fun w => fst w = MX_LED_BLINK_PATH \/ fst w = PANEL_BRIGHTNESS_PATH)
         (device_writes (events (call fn state s)))
  /\ lock_discipline false (events (call fn state s)) = true
  /\ List.length (device_writes (events (call fn state s))) = 1%nat.
Proof.
  destruct fn; simpl call;
    rewrite ?setAttentionLight_run, ?setPanelBacklight_run,
      ?setNotificationLight_run;
    (split; [repeat constructor; simpl; tauto | split; reflexivity]).
Qed.

Lemma do_call_writes (c : Call) (s : Light) :
  Forall (fun w => fst w = MX_LED_BLINK_PATH \/ fst w = PANEL_BRIGHTNESS_PATH)
         (device_writes (events (do_call c s)))
  /\ lock_discipline false (events (do_call c s)) = true.
Proof.
  destruct c as [type state|]; unfold do_call; rewrite bind_events.
  - destruct (find type (mLights s)) as [fn|] eqn:E.
    + rewrite (setLight_found type state s fn E).
      cbn [events state_after result fst snd ret]. rewrite app_nil_r.
      destruct (call_writes fn state s) as (Hw & Hl & _). now split.
    + rewrite (setLight_not_found type state s E). split; [constructor|reflexivity].
  - rewrite getSupportedTypes_run. split; [constructor|reflexivity].
Qed.

Lemma lock_discipline_app (held : bool) (es fs : list Event) :
  lock_discipline held es = true ->
  lock_discipline held (es ++ fs) = lock_discipline false fs.
Proof.
  revert held. induction es as [|e es IH]; intros held H; simpl in *.
  - destruct held; [discriminate H | reflexivity].
  - destruct e, held; simpl in *; try discriminate H; now apply IH.
Qed.

(** X13. Over any history, from any state, every device write goes to the
    blink file or to the brightness file: the capability file the
    constructor reads is never written, whatever the directory of the LED. *)
Theorem only_the_two_control_files_are_written
  (s : Light) (history : list Call) :
  Forall (fun w => fst w = MX_LED_BLINK_PATH \/ fst w = PANEL_BRIGHTNESS_PATH)
         (device_writes (events (do_calls history s)))
  /\ ~ In PANEL_MAX_BRIGHTNESS_PATH
         (map fst (device_writes (events (do_calls history s)))).
Proof.
  assert (Hall : forall (h : list Call) (s0 : Light),
             Forall (fun w => fst w = MX_LED_BLINK_PATH
                              \/ fst w = PANEL_BRIGHTNESS_PATH)
                    (device_writes (events (do_calls h s0)))).
  { induction h as [|c h IH]; intros s0; simpl do_calls.
    - constructor.
    - rewrite bind_events, device_writes_app. apply Forall_app. split.
      + apply do_call_writes.
      + apply IH. }
  split; [apply Hall|].
  intros Hin. apply in_map_iff in Hin. destruct Hin as (w & Hpath & Hw).
  pose proof (proj1 (Forall_forall _ _) (Hall history s) w Hw) as [E | E];
    rewrite Hpath in E.
  - now apply blink_path_is_not_capability_path.
  - discriminate E.
Qed.

(** X14. Over any history, from any state, the trace keeps the lock's
    discipline: the lock is free between calls, each handler takes it once
    and drops it before returning, and no assignment or write happens
    outside. *)
Theorem histories_keep_lock_discipline (s : Light) (history : list Call) :
  lock_discipline false (events (do_calls history s)) = true.
Proof.
  revert s. induction history as [|c h IH]; intros s; simpl do_calls.
  - reflexivity.
  - rewrite bind_events.
    rewrite lock_discipline_app by apply do_call_writes. apply IH.
Qed.

(** X15. Nothing is cached or coalesced: with the three channels registered
    a history makes exactly one device write per [setLight] on a supported
    channel, repeated requests included, and none for the other calls. *)
Theorem one_write_per_supported_request (s : Light) (history : list Call) :
  registered s ->
  List.length (device_writes (events (do_calls history s))) =
  List.length (supported_calls history).
Proof.
  intros Hreg. induction history as [|c h IH] using rev_ind.
  - reflexivity.
  - destruct (do_calls_snoc h c s Hreg) as [_ Hw].
    unfold supported_calls in *.
    rewrite Hw, filter_app, !length_app, IH. f_equal.
    destruct c as [[] state|]; reflexivity.
Qed.

(** ** Requests on different channels *)

Lemma do_calls_two (c1 c2 : Call) (s : Light) :
  registered s ->
  state_after (do_calls [c1; c2] s) = effect_state c2 (effect_state c1 s)
  /\ device_writes (events (do_calls [c1; c2] s)) =
     effect_writes c1 s ++ effect_writes c2 (effect_state c1 s).
Proof.
  intros Hreg. change [c1; c2] with ([c1] ++ [c2]).
  destruct (do_calls_snoc [c1] c2 s Hreg) as [Hs Hw].
  destruct (do_calls_one c1 s) as [Hs1 He1].
  destruct (do_call_effect c1 s Hreg) as [Hc1 Hd1].
  rewrite Hs, Hw, Hs1, He1, Hc1, Hd1. split; reflexivity.
Qed.

(** X16. Two [setLight] requests on different channels commute: in either
    order the members end the same and every device file ends with the same
    content. *)
Theorem requests_on_different_channels_commute
  (s : Light) (type1 type2 : LightType) (state1 state2 : LightState) :
  registered s ->
  type1 <> type2 ->
  let c1 := CallSetLight type1 state1 in
  let c2 := CallSetLight type2 state2 in
  state_after (do_calls [c1; c2] s) = state_after (do_calls [c2; c1] s)
  /\ forall path : string,
       replay (device_writes (events (do_calls [c1; c2] s))) path =
       replay (device_writes (events (do_calls [c2; c1] s))) path.
Proof.
  intros Hreg Hne. cbv zeta.
  destruct (do_calls_two (CallSetLight type1 state1)
              (CallSetLight type2 state2) s Hreg) as [Hs12 Hw12].
  destruct (do_calls_two (CallSetLight type2 state2)
              (CallSetLight type1 state1) s Hreg) as [Hs21 Hw21].
  rewrite Hs12, Hw12, Hs21, Hw21.
  destruct type1, type2; try (now elim Hne);
    (split; [reflexivity|]); intros path;
    cbn [effect_state effect_writes app with_attention with_notification
         mAttentionState mNotificationState mPanelMaxBrightness];
    try reflexivity;
    unfold replay, replay_from; cbn [fold_left fst snd];
    destruct (String.eqb_spec MX_LED_BLINK_PATH path) as [Eb | Nb];
    destruct (String.eqb_spec PANEL_BRIGHTNESS_PATH path) as [Ep | Np];
    try reflexivity;
    exfalso; apply blink_path_is_not_brightness_path; congruence.
Qed.

(** ** The capability the constructor reads *)

Lemma extract_int_range (content : string) (v : Z) :
  extract_int content = Some v -> INT_MIN <= v <= INT_MAX.
Proof.
  unfold extract_int.
  destruct (match skipws content with
            | String "-" r => option_map Z.opp (digits r None)
            | String "+" r => digits r None
            | r => digits r None
            end) as [n|]; [|discriminate].
  destruct (andb _ _) eqn:E; [|discriminate].
  intros [= <-]. apply andb_prop in E. lia.
Qed.

(** X17. Whatever the files hold, the capability the constructor stores
    fits [int], being 255 or a number the extraction accepted, and after any
    history of calls the member still has the value the constructor read. *)
Theorem capability_is_an_int_and_stays (fs : FileSystem) (history : list Call) :
  INT_MIN <= mPanelMaxBrightness (Light_ctor fs) <= INT_MAX
  /\ mPanelMaxBrightness (state_after (do_calls history (Light_ctor fs))) =
     mPanelMaxBrightness (Light_ctor fs)
  /\ (mPanelMaxBrightness (Light_ctor fs) = DEFAULT_MAX_BRIGHTNESS
      \/ exists content : string,
           fs PANEL_MAX_BRIGHTNESS_PATH = Some content
           /\ extract_int content = Some (mPanelMaxBrightness (Light_ctor fs))).
Proof.
  split; [|split].
  - cbn [Light_ctor mPanelMaxBrightness]. unfold get.
    destruct (fs PANEL_MAX_BRIGHTNESS_PATH) as [content|];
      [|vm_compute; split; discriminate].
    destruct (extract_int content) as [v|] eqn:E;
      [now apply (extract_int_range content)
      | vm_compute; split; discriminate].
  - apply do_calls_frame.
  - cbn [Light_ctor mPanelMaxBrightness]. unfold get.
    destruct (fs PANEL_MAX_BRIGHTNESS_PATH) as [content|]; [|now left].
    destruct (extract_int content) as [v|] eqn:E; [|now left].
    right. exists content. now split.
Qed.

(** ** Writing an integer and reading it back *)

Lemma digit_of_digit_char (d : Z) :
  0 <= d <= 9 -> digit (digit_char d) = Some d.
Proof.
  intros H.
  assert (C : d = 0 \/ d = 1 \/ d = 2 \/ d = 3 \/ d = 4 \/ d = 5 \/ d = 6
              \/ d = 7 \/ d = 8 \/ d = 9) by lia.
  repeat (destruct C as [-> | C]; [reflexivity|]). now subst d.
Qed.

Lemma last_digit_range (n : Z) : 0 <= n mod 10 <= 9.
Proof. pose proof (Z.mod_pos_bound n 10). lia. Qed.

Lemma digits_stops (suffix : string) (x : Z) :
  stops suffix = true -> digits suffix (Some x) = Some x.
Proof.
  destruct suffix as [|c r]; [reflexivity|]. simpl.
  now destruct (digit c).
Qed.

Lemma format_digits_S (fuel : nat) (n : Z) (rest : string) :
  format_digits (S fuel) n rest =
  if n / 10 =? 0 then String (digit_char (n mod 10)) rest
  else format_digits fuel (n / 10) (String (digit_char (n mod 10)) rest).
Proof. reflexivity. Qed.

(** Reading the digits of [n] back appends them to what was read so far. *)
Lemma digits_format_digits (fuel : nat) :
  forall (n : Z) (rest : string) (acc : option Z),
    0 <= n < 10 ^ Z.of_nat (S fuel) ->
    exists k : Z,
      0 <= k
      /\ digits (format_digits (S fuel) n rest) acc =
         digits rest
           (Some (match acc with Some a => a | None => 0 end * 10 ^ k + n)).
Proof.
  induction fuel as [|fuel IH]; intros n rest acc Hn.
  - exists 1. split; [lia|]. change (10 ^ Z.of_nat 1) with 10 in Hn.
    rewrite format_digits_S, (Z.div_small n 10) by lia.
    cbn [Z.eqb digits]. rewrite digit_of_digit_char by apply last_digit_range.
    rewrite (Z.mod_small n 10) by lia. f_equal. f_equal. lia.
  - rewrite format_digits_S.
    destruct (Z.eqb_spec (n / 10) 0) as [E | E].
    + exists 1. split; [lia|]. cbn [digits].
      rewrite digit_of_digit_char by apply last_digit_range.
      f_equal. f_equal. pose proof (Z.div_mod n 10). lia.
    + assert (Hq : 0 <= n / 10 < 10 ^ Z.of_nat (S fuel)).
      { split.
        - apply Z.div_pos; lia.
        - apply Z.div_lt_upper_bound; [lia|].
          rewrite <- Z.pow_succ_r by lia.
          now rewrite <- Nat2Z.inj_succ. }
      destruct (IH (n / 10) (String (digit_char (n mod 10)) rest) acc Hq)
        as (k & Hk0 & Hk).
      exists (k + 1). split; [lia|]. rewrite Hk. cbn [digits].
      rewrite digit_of_digit_char by apply last_digit_range.
      f_equal. f_equal. rewrite Z.pow_add_r by lia.
      pose proof (Z.div_mod n 10). lia.
Qed.

Lemma format_digits_head (fuel : nat) :
  forall (n : Z) (rest : string),
    exists (d : Z) (r : string),
      0 <= d <= 9 /\ format_digits (S fuel) n rest = String (digit_char d) r.
Proof.
  induction fuel as [|fuel IH]; intros n rest; rewrite format_digits_S.
  - exists (n mod 10), rest. split; [apply last_digit_range|].
    now destruct (n / 10 =? 0).
  - destruct (n / 10 =? 0).
    + exists (n mod 10), rest. split; [apply last_digit_range | reflexivity].
    + apply IH.
Qed.

Lemma format_digits_append (fuel : nat) :
  forall (n : Z) (rest suffix : string),
    (format_digits fuel n rest ++ suffix)%string =
    format_digits fuel n (rest ++ suffix)%string.
Proof.
  induction fuel as [|fuel IH]; intros n rest suffix.
  - reflexivity.
  - rewrite !format_digits_S.
    destruct (n / 10 =? 0); [reflexivity | apply IH].
Qed.

Lemma extract_int_unsigned (c : ascii) (r : string) (d : Z) :
  digit c = Some d ->
  extract_int (String c r) =
  match digits (String c r) None with
  | Some v => if (INT_MIN <=? v) && (v <=? INT_MAX) then Some v else None
  | None => None
  end.
Proof.
  intros H. destruct c as [[] [] [] [] [] [] [] []];
    try discriminate H; reflexivity.
Qed.

Lemma extract_int_negative (r : string) :
  extract_int (String "-" r) =
  match option_map Z.opp (digits r None) with
  | Some v => if (INT_MIN <=? v) && (v <=? INT_MAX) then Some v else None
  | None => None
  end.
Proof. reflexivity. Qed.

Lemma extract_int_format (v : Z) (suffix : string) :
  INT_MIN <= v <= INT_MAX ->
  stops suffix = true ->
  extract_int (format_int v ++ suffix)%string = Some v.
Proof.
  intros Hv Hstop. unfold INT_MIN, INT_MAX in Hv. unfold format_int.
  destruct (Z.ltb_spec v 0) as [Hneg | Hpos].
  - cbn [append]. rewrite format_digits_append. cbn [append].
    destruct (digits_format_digits 9 (- v) suffix None) as (k & _ & Hk);
      [lia|].
    rewrite extract_int_negative, Hk, digits_stops by assumption.
    cbn [option_map].
    replace (- (0 * 10 ^ k + - v)) with v by lia.
    unfold INT_MIN, INT_MAX.
    destruct (Z.leb_spec (- 2 ^ 31) v); [|lia].
    destruct (Z.leb_spec v (2 ^ 31 - 1)); [reflexivity | lia].
  - rewrite format_digits_append. cbn [append].
    destruct (format_digits_head 9 v suffix) as (d & r & Hd & Hhead).
    destruct (digits_format_digits 9 v suffix None) as (k & _ & Hk); [lia|].
    rewrite Hhead in *.
    rewrite (extract_int_unsigned _ r d) by now apply digit_of_digit_char.
    rewrite Hk, digits_stops by assumption.
    replace (0 * 10 ^ k + v) with v by lia.
    unfold INT_MIN, INT_MAX.
    destruct (Z.leb_spec (- 2 ^ 31) v); [|lia].
    destruct (Z.leb_spec v (2 ^ 31 - 1)); [reflexivity | lia].
Qed.

(** X18. [get] reads back what [set] wrote: once an integer that fits [int]
    has been streamed into a file, [get] on that path returns it, whatever
    the default, and [get] on any other path is as before. *)
Theorem get_reads_back_what_set_wrote
  (fs : FileSystem) (path other : string) (v def : Z) :
  INT_MIN <= v <= INT_MAX ->
  other <> path ->
  get (write_file fs path v) path def = v
  /\ get (write_file fs path v) other def = get fs other def.
Proof.
  intros Hv Hother. unfold get, write_file. split.
  - rewrite String.eqb_refl.
    pose proof (extract_int_format v EmptyString Hv eq_refl) as H.
    assert (Hnil : forall t : string, (t ++ "")%string = t)
      by (induction t as [|c t IHt]; simpl; [reflexivity | now rewrite IHt]).
    rewrite Hnil in H. now rewrite H.
  - apply String.eqb_neq in Hother. now rewrite Hother.
Qed.

(** X19. A capability file holding the decimal text of a number that fits
    [int], followed by a line feed as the kernel prints it, makes the
    constructor store that number. *)
Theorem constructor_reads_decimal_capability (n : Z) :
  INT_MIN <= n <= INT_MAX ->
  mPanelMaxBrightness
    (Light_ctor (capability_file (format_int n ++ newline)%string)) = n.
Proof.
  intros Hn. cbn [Light_ctor mPanelMaxBrightness].
  unfold get, capability_file. rewrite String.eqb_refl.
  now rewrite (extract_int_format n newline Hn eq_refl).
Qed.

End LightService.

(** * The spec's scenarios, evaluated *)

(** The invariant also holds of a container that keeps the entries sorted by
    key. *)
Example registered_in_key_order (pmb : Z) (a n : LightState) :
  registered
    (mkLight pmb a n
       [(BACKLIGHT, backlightFn); (NOTIFICATIONS, notifFn);
        (ATTENTION, attnFn)]).
Proof. reflexivity. Qed.

(** NOTIFICATIONS lit, then ATTENTION unlit: blink; NOTIFICATIONS unlit:
    off; ATTENTION lit: blink. *)
Example arbitration_scenario :
  device_writes
    (events
       (do_calls example_led_path
          [CallSetLight NOTIFICATIONS (rgb 0x00FF0000);
           CallSetLight ATTENTION (rgb 0);
           CallSetLight NOTIFICATIONS (rgb 0);
           CallSetLight ATTENTION (rgb 0x00FFFFFF)]
          (Light_ctor no_files))) =
  [(MX_LED_BLINK_PATH example_led_path, LED_BLINK);
   (MX_LED_BLINK_PATH example_led_path, LED_BLINK);
   (MX_LED_BLINK_PATH example_led_path, LED_OFF);
   (MX_LED_BLINK_PATH example_led_path, LED_BLINK)].
Proof. reflexivity. Qed.

(** What the constructor reads from a few capability files. *)
Example capability_files_read :
  mPanelMaxBrightness (Light_ctor (capability_file "4095")) = 4095
  /\ mPanelMaxBrightness (Light_ctor (capability_file "  1023 ")) = 1023
  /\ mPanelMaxBrightness (Light_ctor (capability_file "")) = 255
  /\ mPanelMaxBrightness (Light_ctor (capability_file "max")) = 255
  /\ mPanelMaxBrightness (Light_ctor (capability_file "-")) = 255
  /\ mPanelMaxBrightness (Light_ctor (capability_file "99999999999")) = 255
  /\ mPanelMaxBrightness (Light_ctor no_files) = 255.
Proof. repeat split; vm_compute; reflexivity. Qed.

(** * The theorems at concrete inputs *)

Lemma led_write_is_function_of_stored_states_witness :
  registered (Light_ctor no_files)
  /\ device_writes
       (events (setLight example_led_path NOTIFICATIONS (rgb 0x00FF0000)
                  (Light_ctor no_files))) =
     [(MX_LED_BLINK_PATH example_led_path, 10)].
Proof.
  split; [reflexivity|].
  destruct (led_write_is_function_of_stored_states example_led_path
              (Light_ctor no_files) NOTIFICATIONS (rgb 0x00FF0000))
    as (Hw & _ & _).
  - reflexivity.
  - right. reflexivity.
  - exact Hw.
Defined.

Lemma setLight_unsupported_witness :
  registered (Light_ctor no_files)
  /\ ~ supported WIFI
  /\ setLight example_led_path WIFI (rgb 0x00FFFFFF) (Light_ctor no_files) =
     (LIGHT_NOT_SUPPORTED, Light_ctor no_files, []).
Proof.
  assert (Hwifi : ~ supported WIFI) by (intros [H | [H | H]]; discriminate H).
  split; [reflexivity|]. split; [exact Hwifi|].
  apply (setLight_unsupported example_led_path (Light_ctor no_files) WIFI
           (rgb 0x00FFFFFF)).
  - reflexivity.
  - exact Hwifi.
Defined.

Lemma setLight_idempotent_witness :
  registered (Light_ctor no_files)
  /\ supported ATTENTION
  /\ let first :=
       setLight example_led_path ATTENTION (rgb 0x00FFFFFF)
         (Light_ctor no_files) in
     let second :=
       setLight example_led_path ATTENTION (rgb 0x00FFFFFF)
         (state_after first) in
     device_writes (events first) = [(MX_LED_BLINK_PATH example_led_path, 10)]
     /\ device_writes (events second) = device_writes (events first)
     /\ state_after second = state_after first.
Proof.
  split; [reflexivity|]. split; [left; reflexivity|]. cbv zeta.
  split; [reflexivity|].
  destruct (setLight_idempotent example_led_path (Light_ctor no_files)
              ATTENTION (rgb 0x00FFFFFF)) as (Hw & _ & Hs & _).
  - reflexivity.
  - left. reflexivity.
  - split; [exact Hw | exact Hs].
Defined.

Lemma capability_fallback_witness :
  capability_unreadable no_files
  /\ mPanelMaxBrightness (Light_ctor no_files) = 255
  /\ device_writes
       (events (setLight example_led_path BACKLIGHT (rgb 0x00808080)
                  (state_after
                     (do_calls example_led_path
                        [CallSetLight ATTENTION (rgb 0x00FFFFFF)]
                        (Light_ctor no_files))))) =
     [(PANEL_BRIGHTNESS_PATH, 128)].
Proof.
  assert (Hfs : capability_unreadable no_files) by (left; reflexivity).
  destruct (capability_fallback example_led_path no_files Hfs) as [H0 Hlater].
  split; [exact Hfs|]. split; [exact H0|].
  destruct (Hlater [CallSetLight ATTENTION (rgb 0x00FFFFFF)]) as [_ Hw].
  exact (proj1 (Hw (rgb 0x00808080))).
Defined.

Lemma setLight_supported_dispatches_under_lock_witness :
  registered (Light_ctor no_files)
  /\ supported BACKLIGHT
  /\ result (setLight example_led_path BACKLIGHT (rgb 0x00808080)
               (Light_ctor no_files)) = SUCCESS
  /\ lock_discipline false
       (events (setLight example_led_path BACKLIGHT (rgb 0x00808080)
                  (Light_ctor no_files))) = true.
Proof.
  split; [reflexivity|]. split; [right; left; reflexivity|].
  destruct (setLight_supported_dispatches_under_lock example_led_path
              (Light_ctor no_files) BACKLIGHT (rgb 0x00808080))
    as (Hr & _ & _ & Hlock & _).
  - reflexivity.
  - right. left. reflexivity.
  - split; [exact Hr | exact Hlock].
Defined.

Lemma only_low_24_bits_consulted_witness :
  let plain := rgb 0x00FF0000 in
  let tagged := mkLightState 0xFFFF0000 TIMED 500 250 SENSOR in
  same_low24 plain tagged
  /\ device_writes
       (events (setLight example_led_path NOTIFICATIONS plain
                  (Light_ctor no_files))) =
     device_writes
       (events (setLight example_led_path NOTIFICATIONS tagged
                  (Light_ctor no_files)))
  /\ isLit plain = isLit tagged.
Proof.
  cbv zeta.
  assert (Hsame : same_low24 (rgb 0x00FF0000)
                    (mkLightState 0xFFFF0000 TIMED 500 250 SENSOR))
    by (apply same_low24_of_mask; reflexivity).
  split; [exact Hsame|].
  destruct (only_low_24_bits_consulted example_led_path (Light_ctor no_files)
              NOTIFICATIONS _ _ Hsame) as (Hw & _ & Hlit & _).
  split; [exact Hw | exact Hlit].
Defined.

Lemma backlight_scaling_witness :
  let s := Light_ctor (capability_file "4095") in
  let grey := rgb 0x00808080 in
  mPanelMaxBrightness s <> 255
  /\ 0 <= mPanelMaxBrightness s
  /\ rgbToBrightness grey * mPanelMaxBrightness s < 2 ^ 32
  /\ device_writes (events (setPanelBacklight grey s)) =
     [(PANEL_BRIGHTNESS_PATH, 2055)].
Proof.
  cbv zeta.
  assert (H1 : mPanelMaxBrightness (Light_ctor (capability_file "4095")) <> 255)
    by (vm_compute; discriminate).
  assert (H2 : 0 <= mPanelMaxBrightness (Light_ctor (capability_file "4095")))
    by (vm_compute; discriminate).
  assert (H3 : rgbToBrightness (rgb 0x00808080)
               * mPanelMaxBrightness (Light_ctor (capability_file "4095"))
               < 2 ^ 32)
    by (vm_compute; reflexivity).
  repeat (split; [assumption|]).
  apply (backlight_scaling _ _ H1 H2 H3); reflexivity.
Defined.

(** C2, as the spec has it, fails twice.  With a capability file holding 4095
    and a grey of luma 128 the value written is 2055, not 2056: 128 * 4095 is
    524160 and 255 * 2056 is 524280.  With a capability file holding
    16843010 and white, of luma 255, the 32-bit product wraps to 254 and the
    value written is 0, not 255 * 16843010 / 255. *)
Lemma backlight_scaling_counterexample :
  (let s := Light_ctor (capability_file "4095") in
   let grey := rgb 0x00808080 in
   mPanelMaxBrightness s = 4095
   /\ rgbToBrightness grey = 128
   /\ device_writes (events (setPanelBacklight grey s)) =
      [(PANEL_BRIGHTNESS_PATH, 2055)]
   /\ device_writes (events (setPanelBacklight grey s)) <>
      [(PANEL_BRIGHTNESS_PATH, 2056)])
  /\ (let s := Light_ctor (capability_file "16843010") in
      let white := rgb 0x00FFFFFF in
      mPanelMaxBrightness s = 16843010
      /\ rgbToBrightness white = 255
      /\ device_writes (events (setPanelBacklight white s)) =
         [(PANEL_BRIGHTNESS_PATH, 0)]
      /\ device_writes (events (setPanelBacklight white s)) <>
         [(PANEL_BRIGHTNESS_PATH,
           rgbToBrightness white * mPanelMaxBrightness s / 255)]).
Proof.
  split; cbv zeta; repeat split; try (vm_compute; reflexivity);
    vm_compute; discriminate.
Qed.

(** * The further properties at concrete inputs *)

Lemma rgbToBrightness_grey_witness :
  red opaque_grey = 128 /\ green opaque_grey = 128 /\ blue opaque_grey = 128
  /\ rgbToBrightness opaque_grey = 128.
Proof.
  repeat (split; [reflexivity|]).
  apply (rgbToBrightness_grey opaque_grey 128); reflexivity.
Defined.

Lemma unlit_has_no_brightness_witness :
  let alpha_only := mkLightState 0xFF000000 TIMED 500 250 SENSOR in
  isLit alpha_only = false /\ rgbToBrightness alpha_only = 0.
Proof.
  cbv zeta. split; [reflexivity|].
  apply unlit_has_no_brightness. reflexivity.
Defined.

Lemma rgbToBrightness_monotone_witness :
  let a := rgb 0x00102030 in
  let b := rgb 0x00203040 in
  red a <= red b /\ green a <= green b /\ blue a <= blue b
  /\ rgbToBrightness a <= rgbToBrightness b.
Proof.
  cbv zeta.
  assert (Hr : red (rgb 0x00102030) <= red (rgb 0x00203040))
    by (vm_compute; discriminate).
  assert (Hg : green (rgb 0x00102030) <= green (rgb 0x00203040))
    by (vm_compute; discriminate).
  assert (Hb : blue (rgb 0x00102030) <= blue (rgb 0x00203040))
    by (vm_compute; discriminate).
  repeat (split; [assumption|]).
  exact (rgbToBrightness_monotone _ _ Hr Hg Hb).
Defined.

Lemma backlight_within_panel_range_witness :
  let s := Light_ctor (capability_file "4095") in
  0 <= mPanelMaxBrightness s <= 16843009
  /\ device_writes (events (setPanelBacklight (rgb 0x00FFFFFF) s)) =
     [(PANEL_BRIGHTNESS_PATH, 4095)].
Proof.
  cbv zeta.
  assert (Hm : 0 <= mPanelMaxBrightness (Light_ctor (capability_file "4095"))
               <= 16843009)
    by (split; vm_compute; discriminate).
  split; [exact Hm|].
  exact (proj1 (backlight_within_panel_range _ (rgb 0x00FFFFFF) Hm)).
Defined.

Lemma backlight_monotone_witness :
  let s := Light_ctor (capability_file "4095") in
  0 <= mPanelMaxBrightness s <= 16843009
  /\ rgbToBrightness (rgb 0x00404040) <= rgbToBrightness (rgb 0x00808080)
  /\ backlight_value (mPanelMaxBrightness s) (rgb 0x00404040)
     <= backlight_value (mPanelMaxBrightness s) (rgb 0x00808080).
Proof.
  cbv zeta.
  assert (Hm : 0 <= mPanelMaxBrightness (Light_ctor (capability_file "4095"))
               <= 16843009)
    by (split; vm_compute; discriminate).
  assert (Hab : rgbToBrightness (rgb 0x00404040)
                <= rgbToBrightness (rgb 0x00808080))
    by (vm_compute; discriminate).
  split; [exact Hm|]. split; [exact Hab|].
  exact (proj1 (backlight_monotone _ _ _ Hm Hab)).
Defined.

Lemma led_does_not_tell_channels_apart_witness :
  registered (Light_ctor no_files)
  /\ device_writes
       (events (setLight example_led_path ATTENTION (rgb 0x00FF0000)
                  (Light_ctor no_files))) =
     device_writes
       (events (setLight example_led_path NOTIFICATIONS (rgb 0x00FF0000)
                  (swap_slots (Light_ctor no_files)))).
Proof.
  split; [reflexivity|].
  destruct (led_does_not_tell_channels_apart example_led_path
              (Light_ctor no_files) (rgb 0x00FF0000)) as (_ & _ & H).
  - reflexivity.
  - exact H.
Defined.

Lemma stored_states_are_last_requests_witness :
  registered (Light_ctor no_files)
  /\ mAttentionState
       (state_after
          (do_calls example_led_path example_history (Light_ctor no_files))) =
     rgb 0
  /\ mNotificationState
       (state_after
          (do_calls example_led_path example_history (Light_ctor no_files))) =
     rgb 0x00FF0000.
Proof.
  split; [reflexivity|].
  destruct (stored_states_are_last_requests example_led_path
              (Light_ctor no_files) example_history) as (Ha & Hn & _).
  - reflexivity.
  - split; [exact Ha | exact Hn].
Defined.



Lemma one_write_per_supported_request_witness :
  registered (Light_ctor no_files)
  /\ List.length
       (device_writes
          (events
             (do_calls example_led_path example_history (Light_ctor no_files))))
     = 3%nat.
Proof.
  split; [reflexivity|].
  apply (one_write_per_supported_request example_led_path
           (Light_ctor no_files) example_history).
  reflexivity.
Defined.

Lemma requests_on_different_channels_commute_witness :
  registered (Light_ctor no_files)
  /\ ATTENTION <> BACKLIGHT
  /\ state_after
       (do_calls example_led_path
          [CallSetLight ATTENTION (rgb 0x00FFFFFF);
           CallSetLight BACKLIGHT (rgb 0x00808080)] (Light_ctor no_files)) =
     state_after
       (do_calls example_led_path
          [CallSetLight BACKLIGHT (rgb 0x00808080);
           CallSetLight ATTENTION (rgb 0x00FFFFFF)] (Light_ctor no_files)).
Proof.
  assert (Hne : ATTENTION <> BACKLIGHT) by discriminate.
  split; [reflexivity|]. split; [exact Hne|].
  destruct (requests_on_different_channels_commute example_led_path
              (Light_ctor no_files) ATTENTION BACKLIGHT (rgb 0x00FFFFFF)
              (rgb 0x00808080)) as [H _].
  - reflexivity.
  - exact Hne.
  - exact H.
Defined.

Lemma get_reads_back_what_set_wrote_witness :
  INT_MIN <= 2055 <= INT_MAX
  /\ PANEL_MAX_BRIGHTNESS_PATH <> PANEL_BRIGHTNESS_PATH
  /\ get (write_file no_files PANEL_BRIGHTNESS_PATH 2055)
         PANEL_BRIGHTNESS_PATH 255 = 2055.
Proof.
  assert (Hv : INT_MIN <= 2055 <= INT_MAX) by (split; vm_compute; discriminate).
  assert (Hp : PANEL_MAX_BRIGHTNESS_PATH <> PANEL_BRIGHTNESS_PATH)
    by discriminate.
  split; [exact Hv|]. split; [exact Hp|].
  exact (proj1 (get_reads_back_what_set_wrote no_files PANEL_BRIGHTNESS_PATH
                  PANEL_MAX_BRIGHTNESS_PATH 2055 255 Hv Hp)).
Defined.

Lemma constructor_reads_decimal_capability_witness :
  INT_MIN <= 4095 <= INT_MAX
  /\ mPanelMaxBrightness
       (Light_ctor (capability_file (format_int 4095 ++ newline)%string)) =
     4095.
Proof.
  assert (Hv : INT_MIN <= 4095 <= INT_MAX) by (split; vm_compute; discriminate).
  split; [exact Hv|].
  exact (constructor_reads_decimal_capability 4095 Hv).
Defined.
